(** * The system event broker of components/esp32/event.c

    A shallow embedding of the event loop of the ESP32 WiFi stack: the
    bounded event queue, the static dispatch table, the default handlers
    that drive the TCP/IP adapters, the broker task and the registration
    and producer API.

    The file-scope variables of event.c become the fields of a [World]
    record that every function threads explicitly.  The WiFi driver, the
    TCP/IP adapter layer and the application callback are collaborators
    whose code is not part of event.c: they are the methods of the
    [Platform] class, and every result below holds for all of its
    instances.  A ghost history records each call that leaves event.c. *)

From Stdlib Require Import List ZArith NArith Bool Arith Lia.
Import ListNotations.

(** ** Result codes *)

(** Modelled from the spec: esp_err.h is not under src/.  The spec only
    separates success from failure codes; the values are those of
    ESP-IDF (ESP_OK is 0, ESP_FAIL is -1) and only their being different
    matters below. *)
Definition esp_err_t := Z.
Definition ESP_OK : esp_err_t := 0%Z.
Definition ESP_FAIL : esp_err_t := (-1)%Z.

(** Modelled from the spec: the FreeRTOS result codes of queue.h and
    projdefs.h, not under src/ (success, and the full-queue failure). *)
Definition portBASE_TYPE := Z.
Definition pdPASS : portBASE_TYPE := 1%Z.
Definition errQUEUE_FULL : portBASE_TYPE := 0%Z.

(** ** Event kinds *)

(** Modelled from the spec: the enumeration system_event_id_t is declared
    in esp_event.h, which is not under src/.  The spec calls it a bounded
    enumeration with a fixed upper sentinel whose values index the
    dispatch table positionally; its enumerators are numbered from 0 in
    the order in which event.c lists them.  An enumeration without
    negative enumerators is an unsigned integer for the compiler, hence
    [N]: a stored kind may be any number, also one past the sentinel. *)
Definition system_event_id_t := N.
Definition SYSTEM_EVENT_WIFI_READY : system_event_id_t := 0%N.
Definition SYSTEM_EVENT_SCAN_DONE : system_event_id_t := 1%N.
Definition SYSTEM_EVENT_STA_START : system_event_id_t := 2%N.
Definition SYSTEM_EVENT_STA_STOP : system_event_id_t := 3%N.
Definition SYSTEM_EVENT_STA_CONNECTED : system_event_id_t := 4%N.
Definition SYSTEM_EVENT_STA_DISCONNECTED : system_event_id_t := 5%N.
Definition SYSTEM_EVENT_STA_AUTHMODE_CHANGE : system_event_id_t := 6%N.
Definition SYSTEM_EVENT_STA_GOT_IP : system_event_id_t := 7%N.
Definition SYSTEM_EVENT_AP_START : system_event_id_t := 8%N.
Definition SYSTEM_EVENT_AP_STOP : system_event_id_t := 9%N.
Definition SYSTEM_EVENT_AP_STACONNECTED : system_event_id_t := 10%N.
Definition SYSTEM_EVENT_AP_STADISCONNECTED : system_event_id_t := 11%N.
Definition SYSTEM_EVENT_AP_PROBEREQRECVED : system_event_id_t := 12%N.
Definition SYSTEM_EVENT_MAX : system_event_id_t := 13%N.

(** ** Adapters and addresses *)

(** esp_wifi.h, wifi_interface_t. *)
Inductive wifi_interface_t := WIFI_IF_STA | WIFI_IF_AP | WIFI_IF_MAX.

(** Modelled from the spec: tcpip_adapter.h is not under src/.  The two
    adapter roles, and the states of the address-assignment client (not
    yet started, started, stopped). *)
Inductive tcpip_adapter_if_t := TCPIP_ADAPTER_IF_STA | TCPIP_ADAPTER_IF_AP.

Inductive tcpip_adapter_dhcp_status_t :=
  | TCPIP_ADAPTER_DHCP_INIT
  | TCPIP_ADAPTER_DHCP_STARTED
  | TCPIP_ADAPTER_DHCP_STOPPED.

Definition tcpip_adapter_dhcp_status_eqb (a b : tcpip_adapter_dhcp_status_t) : bool :=
  match a, b with
  | TCPIP_ADAPTER_DHCP_INIT, TCPIP_ADAPTER_DHCP_INIT => true
  | TCPIP_ADAPTER_DHCP_STARTED, TCPIP_ADAPTER_DHCP_STARTED => true
  | TCPIP_ADAPTER_DHCP_STOPPED, TCPIP_ADAPTER_DHCP_STOPPED => true
  | _, _ => false
  end.

(** An IPv4 address is its 32-bit word. *)
Definition ip4_addr_t := N.
Definition IPADDR_ANY : ip4_addr_t := 0%N.

(** Modelled from the spec: the macro ip4_addr_isany_val of the IP stack
    (not under src/) tests an address against the zero value. *)
Definition ip4_addr_isany_val (a : ip4_addr_t) : bool := N.eqb a IPADDR_ANY.

(** Modelled from the spec: the cached address configuration of an
    adapter (address, mask, gateway), tcpip_adapter.h. *)
Record tcpip_adapter_ip_info_t := mk_ip_info {
  ip : ip4_addr_t;
  netmask : ip4_addr_t;
  gw : ip4_addr_t
}.

(** A link address is six bytes. *)
Definition mac_t := list N.

(** ** Events *)

(** Modelled from the spec: the payload union of system_event_t
    (esp_event.h, not under src/), one member per kind of payload the
    spec lists.  [info_unset] is a payload no member of which was
    written. *)
Inductive system_event_info_t :=
  | info_unset
  | info_scan_done (status number : N)
  | info_connected (ssid : list N) (ssid_len : N) (bssid : mac_t) (channel authmode : N)
  | info_disconnected (ssid : list N) (ssid_len : N) (bssid : mac_t) (reason : N)
  | info_auth_change (old_mode new_mode : N)
  | info_got_ip (ip_info : tcpip_adapter_ip_info_t)
  | info_sta_connected (mac : mac_t) (aid : N)
  | info_sta_disconnected (mac : mac_t) (aid : N)
  | info_ap_probereqrecved (rssi : Z) (mac : mac_t).

Record system_event_t := mk_event {
  event_id : system_event_id_t;
  event_info : system_event_info_t
}.

(** ** Function pointers *)

(** The inbound-packet routines of the adapter layer that event.c hands
    to the driver; a [None] of [option wifi_rxcb_t] is the NULL pointer. *)
Inductive wifi_rxcb_t := tcpip_adapter_sta_input | tcpip_adapter_ap_input.

(** An application callback is known by its address; [None] is NULL. *)
Definition system_event_cb_t := N.

(** The context pointer handed back to the callback. *)
Definition ctx_t := N.

(** The values a [system_event_handle_fn_t] takes in the table. *)
Inductive system_event_handle_fn_t :=
  | fn_system_event_ap_start_handle_default
  | fn_system_event_ap_stop_handle_default
  | fn_system_event_sta_start_handle_default
  | fn_system_event_sta_stop_handle_default
  | fn_system_event_sta_connected_handle_default
  | fn_system_event_sta_disconnected_handle_default
  | fn_system_event_sta_got_ip_default.

Record system_event_handle_t := mk_handle {
  entry_event_id : system_event_id_t;
  event_handle : option system_event_handle_fn_t
}.

(** ** The queue *)

(** Modelled from the spec: the FreeRTOS queue (queue.c is not under
    src/) is a bounded FIFO buffer of event values whose capacity is
    fixed when it is created. *)
Record xQueue := mk_queue {
  uxLength : nat;
  items : list system_event_t
}.

(** Modelled from the spec: creation gives an empty queue of the asked
    capacity. *)
Definition xQueueCreate (uxQueueLength : nat) : xQueue :=
  {| uxLength := uxQueueLength; items := [] |}.

(** Modelled from the spec: enqueue at the back.  With room the item is
    appended and the call returns at once.  Without room the caller stays
    suspended for the wait it gave, and the call then fails with the
    queue as it was: no other task runs inside a call of this sequential
    model, so a full queue stays full for the whole wait.  The last
    component of the result is the number of ticks the caller spent
    suspended; with a wait of 0 the call never suspends. *)
Definition xQueueSendToBack (q : xQueue) (item : system_event_t) (xTicksToWait : N)
  : portBASE_TYPE * xQueue * N :=
  if length (items q) <? uxLength q
  then (pdPASS, {| uxLength := uxLength q; items := items q ++ [item] |}, 0%N)
  else (errQUEUE_FULL, q, xTicksToWait).

Definition portMAX_DELAY : N := 4294967295%N.

(** Modelled from the spec: dequeue from the front.  [None] is the caller
    left suspended on an empty queue: no other task runs inside a call of
    this sequential model, so an empty queue stays empty for any wait
    (the broker waits without bound). *)
Definition xQueueReceive (q : xQueue) (xTicksToWait : N)
  : option (system_event_t * xQueue) :=
  match items q with
  | [] => None
  | e :: rest => Some (e, {| uxLength := uxLength q; items := rest |})
  end.

(** ** Console output and ghost history *)

(** The lines event.c prints (the WIFI_DEBUG macro expands to nothing). *)
Inductive console_line :=
  | Print_event_is_null
  | Print_no_such_kind_of_event
  | Print_mismatch_or_invalid_event (id : system_event_id_t)
  | Print_post_event_to_user_fail
  | Print_send_failed (id : option system_event_id_t)
  | Print_ip_mask_gw (info : system_event_info_t).

(** What leaves event.c, in the order it happens.  A send is noted with
    the event offered, the result of the queue and the ticks the caller
    spent suspended in the call. *)
Inductive history_item :=
  | Call_esp_wifi_reg_rxcb (ifx : wifi_interface_t) (fn : option wifi_rxcb_t)
  | Call_esp_wifi_get_mac (ifx : wifi_interface_t)
  | Call_esp_wifi_set_sta_ip
  | Call_tcpip_adapter_get_ip_info (tcpip_if : tcpip_adapter_if_t)
  | Call_tcpip_adapter_start (tcpip_if : tcpip_adapter_if_t) (mac : mac_t)
      (info : tcpip_adapter_ip_info_t)
  | Call_tcpip_adapter_stop (tcpip_if : tcpip_adapter_if_t)
  | Call_tcpip_adapter_up (tcpip_if : tcpip_adapter_if_t)
  | Call_tcpip_adapter_down (tcpip_if : tcpip_adapter_if_t)
  | Call_tcpip_adapter_dhcpc_get_status (tcpip_if : tcpip_adapter_if_t)
  | Call_tcpip_adapter_dhcpc_start (tcpip_if : tcpip_adapter_if_t)
  | Queue_send (e : system_event_t) (ret : portBASE_TYPE) (suspended : N)
  | Queue_receive (e : system_event_t)
  | Enter_default (fn : system_event_handle_fn_t) (e : system_event_t)
  | Call_user_cb (cb : system_event_cb_t) (ctx : ctx_t) (e : system_event_t).

(** Tasks handed to the scheduler. *)
Inductive task_t := eventTask.

(** ** The collaborators *)

(** The driver, the adapter layer and the application, over a state of
    their own.  A call returns its result code (and what it writes
    through its out-parameter) with the next state.  The capacity of the
    queue is the build-time option SYSTEM_EVENT_QUEUE_SIZE of Kconfig. *)
Class Platform := {
  Env : Type;
  CONFIG_SYSTEM_EVENT_QUEUE_SIZE : nat;
  esp_wifi_reg_rxcb : wifi_interface_t -> option wifi_rxcb_t -> Env -> esp_err_t * Env;
  esp_wifi_get_mac : wifi_interface_t -> Env -> (esp_err_t * mac_t) * Env;
  esp_wifi_set_sta_ip : Env -> esp_err_t * Env;
  tcpip_adapter_get_ip_info :
    tcpip_adapter_if_t -> Env -> (esp_err_t * tcpip_adapter_ip_info_t) * Env;
  tcpip_adapter_start :
    tcpip_adapter_if_t -> mac_t -> tcpip_adapter_ip_info_t -> Env -> esp_err_t * Env;
  tcpip_adapter_stop : tcpip_adapter_if_t -> Env -> esp_err_t * Env;
  tcpip_adapter_up : tcpip_adapter_if_t -> Env -> esp_err_t * Env;
  tcpip_adapter_down : tcpip_adapter_if_t -> Env -> esp_err_t * Env;
  tcpip_adapter_dhcpc_get_status :
    tcpip_adapter_if_t -> Env -> (esp_err_t * tcpip_adapter_dhcp_status_t) * Env;
  tcpip_adapter_dhcpc_start : tcpip_adapter_if_t -> Env -> esp_err_t * Env;
  user_callback : system_event_cb_t -> ctx_t -> system_event_t -> Env -> esp_err_t * Env
}.

(** ** A state monad for the code of event.c *)

Definition M (S A : Type) : Type := S -> A * S.

Definition ret {S A : Type} (a : A) : M S A := fun s => (a, s).

Definition bind {S A B : Type} (m : M S A) (k : A -> M S B) : M S B :=
  fun s => k (fst (m s)) (snd (m s)).

Definition gets {S A : Type} (f : S -> A) : M S A := fun s => (f s, s).

Definition modify {S : Type} (f : S -> S) : M S unit := fun s => (tt, f s).

Declare Scope monad_scope.
Delimit Scope monad_scope with monad.
Notation "x <- m ;; k" := (bind m (fun x => k))
  (at level 61, m at next level, right associativity) : monad_scope.
Notation "m ;; k" := (bind m (fun _ => k))
  (at level 61, right associativity) : monad_scope.
Open Scope monad_scope.

(** The macro WIFI_API_CALL_CHECK: run the call and return its code at
    once when it is not the expected one; [k] is the rest of the
    function. *)
Definition WIFI_API_CALL_CHECK {S : Type} (api_call : M S esp_err_t) (expected : esp_err_t)
    (k : M S esp_err_t) : M S esp_err_t :=
  err <- api_call ;;
  if negb (Z.eqb expected err) then ret err else k.

(** ** What the history says happened *)

(** The events the queue accepted, in the order of the calls. *)
Definition enqueued (h : list history_item) : list system_event_t :=
  flat_map (fun i => match i with
                     | Queue_send e r _ => if Z.eqb r pdPASS then [e] else []
                     | _ => []
                     end) h.

(** The events offered to the queue, accepted or not. *)
Definition send_attempts (h : list history_item) : list system_event_t :=
  flat_map (fun i => match i with Queue_send e _ _ => [e] | _ => [] end) h.

(** The ticks each send kept its caller suspended, in the order of the
    sends. *)
Definition suspensions (h : list history_item) : list N :=
  flat_map (fun i => match i with Queue_send _ _ t => [t] | _ => [] end) h.

(** The events the broker took from the queue. *)
Definition dequeued (h : list history_item) : list system_event_t :=
  flat_map (fun i => match i with Queue_receive e => [e] | _ => [] end) h.

(** The events for which a default handler was entered. *)
Definition default_stage (h : list history_item) : list system_event_t :=
  flat_map (fun i => match i with Enter_default _ e => [e] | _ => [] end) h.

(** The events handed to an application callback. *)
Definition delivered (h : list history_item) : list system_event_t :=
  flat_map (fun i => match i with Call_user_cb _ _ e => [e] | _ => [] end) h.

(** The calls into the driver and the adapter layer. *)
Definition is_adapter_call (i : history_item) : bool :=
  match i with
  | Queue_send _ _ _ | Queue_receive _ | Enter_default _ _ | Call_user_cb _ _ _ => false
  | _ => true
  end.

Definition adapter_calls (h : list history_item) : list history_item :=
  filter is_adapter_call h.

(** ** The state of event.c and of its surroundings *)

Section Broker.

Context {P : Platform}.

(** The four file-scope variables of event.c, the tasks created so far,
    the state of the collaborators, the console and the ghost history. *)
Record World := mk_world {
  event_init_flag : bool;
  g_event_handler : option xQueue;
  g_event_handler_cb : option system_event_cb_t;
  g_event_ctx : ctx_t;
  tasks : list task_t;
  env : Env;
  console : list console_line;
  history : list history_item
}.

(** The state at boot: the statics hold their initializers. *)
Definition boot (e : Env) : World :=
  {| event_init_flag := false; g_event_handler := None;
     g_event_handler_cb := None; g_event_ctx := 0%N;
     tasks := []; env := e; console := []; history := [] |}.

Definition set_g_event_handler (q : option xQueue) (w : World) : World :=
  {| event_init_flag := event_init_flag w; g_event_handler := q;
     g_event_handler_cb := g_event_handler_cb w; g_event_ctx := g_event_ctx w;
     tasks := tasks w; env := env w; console := console w; history := history w |}.

Definition set_g_event_handler_cb (cb : option system_event_cb_t) (w : World) : World :=
  {| event_init_flag := event_init_flag w; g_event_handler := g_event_handler w;
     g_event_handler_cb := cb; g_event_ctx := g_event_ctx w;
     tasks := tasks w; env := env w; console := console w; history := history w |}.

Definition set_g_event_ctx (ctx : ctx_t) (w : World) : World :=
  {| event_init_flag := event_init_flag w; g_event_handler := g_event_handler w;
     g_event_handler_cb := g_event_handler_cb w; g_event_ctx := ctx;
     tasks := tasks w; env := env w; console := console w; history := history w |}.

Definition add_task (t : task_t) (w : World) : World :=
  {| event_init_flag := event_init_flag w; g_event_handler := g_event_handler w;
     g_event_handler_cb := g_event_handler_cb w; g_event_ctx := g_event_ctx w;
     tasks := tasks w ++ [t]; env := env w; console := console w; history := history w |}.

Definition set_env (e : Env) (w : World) : World :=
  {| event_init_flag := event_init_flag w; g_event_handler := g_event_handler w;
     g_event_handler_cb := g_event_handler_cb w; g_event_ctx := g_event_ctx w;
     tasks := tasks w; env := e; console := console w; history := history w |}.

Definition add_console (l : console_line) (w : World) : World :=
  {| event_init_flag := event_init_flag w; g_event_handler := g_event_handler w;
     g_event_handler_cb := g_event_handler_cb w; g_event_ctx := g_event_ctx w;
     tasks := tasks w; env := env w; console := console w ++ [l]; history := history w |}.

Definition add_history (i : history_item) (w : World) : World :=
  {| event_init_flag := event_init_flag w; g_event_handler := g_event_handler w;
     g_event_handler_cb := g_event_handler_cb w; g_event_ctx := g_event_ctx w;
     tasks := tasks w; env := env w; console := console w; history := history w ++ [i] |}.

(** The events waiting in the queue of a world; none before the queue
    exists. *)
Definition pending (w : World) : list system_event_t :=
  match g_event_handler w with
  | Some q => items q
  | None => []
  end.

(** ** Primitive steps *)

Definition printf (l : console_line) : M World unit := modify (add_console l).

(** A call of a collaborator: it is noted in the history and runs on the
    state of the collaborators. *)
Definition extern {A : Type} (i : history_item) (f : Env -> A * Env) : M World A :=
  fun w => (fst (f (env w)), add_history i (set_env (snd (f (env w))) w)).

Definition call_esp_wifi_reg_rxcb (ifx : wifi_interface_t) (fn : option wifi_rxcb_t)
  : M World esp_err_t :=
  extern (Call_esp_wifi_reg_rxcb ifx fn) (esp_wifi_reg_rxcb ifx fn).

Definition call_esp_wifi_get_mac (ifx : wifi_interface_t) : M World (esp_err_t * mac_t) :=
  extern (Call_esp_wifi_get_mac ifx) (esp_wifi_get_mac ifx).

Definition call_esp_wifi_set_sta_ip : M World esp_err_t :=
  extern Call_esp_wifi_set_sta_ip esp_wifi_set_sta_ip.

Definition call_tcpip_adapter_get_ip_info (tcpip_if : tcpip_adapter_if_t)
  : M World (esp_err_t * tcpip_adapter_ip_info_t) :=
  extern (Call_tcpip_adapter_get_ip_info tcpip_if) (tcpip_adapter_get_ip_info tcpip_if).

Definition call_tcpip_adapter_start (tcpip_if : tcpip_adapter_if_t) (mac : mac_t)
    (info : tcpip_adapter_ip_info_t) : M World esp_err_t :=
  extern (Call_tcpip_adapter_start tcpip_if mac info) (tcpip_adapter_start tcpip_if mac info).

Definition call_tcpip_adapter_stop (tcpip_if : tcpip_adapter_if_t) : M World esp_err_t :=
  extern (Call_tcpip_adapter_stop tcpip_if) (tcpip_adapter_stop tcpip_if).

Definition call_tcpip_adapter_up (tcpip_if : tcpip_adapter_if_t) : M World esp_err_t :=
  extern (Call_tcpip_adapter_up tcpip_if) (tcpip_adapter_up tcpip_if).

Definition call_tcpip_adapter_down (tcpip_if : tcpip_adapter_if_t) : M World esp_err_t :=
  extern (Call_tcpip_adapter_down tcpip_if) (tcpip_adapter_down tcpip_if).

Definition call_tcpip_adapter_dhcpc_get_status (tcpip_if : tcpip_adapter_if_t)
  : M World (esp_err_t * tcpip_adapter_dhcp_status_t) :=
  extern (Call_tcpip_adapter_dhcpc_get_status tcpip_if)
         (tcpip_adapter_dhcpc_get_status tcpip_if).

Definition call_tcpip_adapter_dhcpc_start (tcpip_if : tcpip_adapter_if_t) : M World esp_err_t :=
  extern (Call_tcpip_adapter_dhcpc_start tcpip_if) (tcpip_adapter_dhcpc_start tcpip_if).

(** The call through g_event_handler_cb. *)
Definition call_user_cb (cb : system_event_cb_t) (ctx : ctx_t) (event : system_event_t)
  : M World esp_err_t :=
  extern (Call_user_cb cb ctx event) (user_callback cb ctx event).

(** xQueueSendToBack on the handle g_event_handler.  A NULL handle or a
    NULL item is outside the contract of the FreeRTOS call; the model
    lets such a call fail and change nothing. *)
Definition call_xQueueSendToBack (event : option system_event_t) (xTicksToWait : N)
  : M World portBASE_TYPE :=
  fun w =>
    match g_event_handler w, event with
    | Some q, Some e =>
        let r := xQueueSendToBack q e xTicksToWait in
        (fst (fst r),
         add_history (Queue_send e (fst (fst r)) (snd r))
           (set_g_event_handler (Some (snd (fst r))) w))
    | _, _ => (errQUEUE_FULL, w)
    end.

(** ** The producer API *)

(** esp_event_send: offer the event to the back of the queue with a wait
    of 0; a refusal is printed and reported as ESP_FAIL. *)
Definition esp_event_send (event : option system_event_t) : M World esp_err_t :=
  r <- call_xQueueSendToBack event 0%N ;;
  if negb (Z.eqb pdPASS r) then
    (match event with
     | Some e => printf (Print_send_failed (Some (event_id e)))
     | None => printf (Print_send_failed None)
     end) ;;
    ret ESP_FAIL
  else ret ESP_OK.

(** ** The default handlers *)

Definition system_event_sta_got_ip_default (event : system_event_t) : M World esp_err_t :=
  WIFI_API_CALL_CHECK call_esp_wifi_set_sta_ip ESP_OK (
    printf (Print_ip_mask_gw (event_info event)) ;;
    ret ESP_OK).

Definition system_event_ap_start_handle_default (event : system_event_t) : M World esp_err_t :=
  WIFI_API_CALL_CHECK
    (call_esp_wifi_reg_rxcb WIFI_IF_AP (Some tcpip_adapter_ap_input)) ESP_OK (
  ap_mac <- call_esp_wifi_get_mac WIFI_IF_AP ;;
  WIFI_API_CALL_CHECK (ret (fst ap_mac)) ESP_OK (
    ap_ip <- call_tcpip_adapter_get_ip_info TCPIP_ADAPTER_IF_AP ;;
    call_tcpip_adapter_start TCPIP_ADAPTER_IF_AP (snd ap_mac) (snd ap_ip) ;;
    ret ESP_OK)).

Definition system_event_ap_stop_handle_default (event : system_event_t) : M World esp_err_t :=
  WIFI_API_CALL_CHECK (call_esp_wifi_reg_rxcb WIFI_IF_AP None) ESP_OK (
    call_tcpip_adapter_stop TCPIP_ADAPTER_IF_AP ;;
    ret ESP_OK).

Definition system_event_sta_start_handle_default (event : system_event_t) : M World esp_err_t :=
  sta_mac <- call_esp_wifi_get_mac WIFI_IF_STA ;;
  WIFI_API_CALL_CHECK (ret (fst sta_mac)) ESP_OK (
    sta_ip <- call_tcpip_adapter_get_ip_info TCPIP_ADAPTER_IF_STA ;;
    call_tcpip_adapter_start TCPIP_ADAPTER_IF_STA (snd sta_mac) (snd sta_ip) ;;
    ret ESP_OK).

Definition system_event_sta_stop_handle_default (event : system_event_t) : M World esp_err_t :=
  call_tcpip_adapter_stop TCPIP_ADAPTER_IF_STA ;;
  ret ESP_OK.

(** The test of line 155: none of address, mask and gateway is zero. *)
Definition static_ip_is_valid (sta_ip : tcpip_adapter_ip_info_t) : bool :=
  negb (ip4_addr_isany_val (ip sta_ip) || ip4_addr_isany_val (netmask sta_ip)
        || ip4_addr_isany_val (gw sta_ip)).

(** The event built at lines 156 to 160. *)
Definition got_ip_event (sta_ip : tcpip_adapter_ip_info_t) : system_event_t :=
  {| event_id := SYSTEM_EVENT_STA_GOT_IP; event_info := info_got_ip sta_ip |}.

Definition system_event_sta_connected_handle_default (event : system_event_t)
  : M World esp_err_t :=
  WIFI_API_CALL_CHECK
    (call_esp_wifi_reg_rxcb WIFI_IF_STA (Some tcpip_adapter_sta_input)) ESP_OK (
  call_tcpip_adapter_up TCPIP_ADAPTER_IF_STA ;;
  status <- call_tcpip_adapter_dhcpc_get_status TCPIP_ADAPTER_IF_STA ;;
  (if tcpip_adapter_dhcp_status_eqb (snd status) TCPIP_ADAPTER_DHCP_INIT then
     call_tcpip_adapter_dhcpc_start TCPIP_ADAPTER_IF_STA ;; ret tt
   else if tcpip_adapter_dhcp_status_eqb (snd status) TCPIP_ADAPTER_DHCP_STOPPED then
     sta_ip <- call_tcpip_adapter_get_ip_info TCPIP_ADAPTER_IF_STA ;;
     if static_ip_is_valid (snd sta_ip) then
       esp_event_send (Some (got_ip_event (snd sta_ip))) ;; ret tt
     else ret tt
   else ret tt) ;;
  ret ESP_OK).

Definition system_event_sta_disconnected_handle_default (event : system_event_t)
  : M World esp_err_t :=
  call_tcpip_adapter_down TCPIP_ADAPTER_IF_STA ;;
  WIFI_API_CALL_CHECK (call_esp_wifi_reg_rxcb WIFI_IF_STA None) ESP_OK (
    ret ESP_OK).

(** ** The dispatch table *)

Definition g_system_event_handle_table : list system_event_handle_t :=
  [ mk_handle SYSTEM_EVENT_WIFI_READY None;
    mk_handle SYSTEM_EVENT_SCAN_DONE None;
    mk_handle SYSTEM_EVENT_STA_START (Some fn_system_event_sta_start_handle_default);
    mk_handle SYSTEM_EVENT_STA_STOP (Some fn_system_event_sta_stop_handle_default);
    mk_handle SYSTEM_EVENT_STA_CONNECTED (Some fn_system_event_sta_connected_handle_default);
    mk_handle SYSTEM_EVENT_STA_DISCONNECTED
              (Some fn_system_event_sta_disconnected_handle_default);
    mk_handle SYSTEM_EVENT_STA_AUTHMODE_CHANGE None;
    mk_handle SYSTEM_EVENT_STA_GOT_IP (Some fn_system_event_sta_got_ip_default);
    mk_handle SYSTEM_EVENT_AP_START (Some fn_system_event_ap_start_handle_default);
    mk_handle SYSTEM_EVENT_AP_STOP (Some fn_system_event_ap_stop_handle_default);
    mk_handle SYSTEM_EVENT_AP_STACONNECTED None;
    mk_handle SYSTEM_EVENT_AP_STADISCONNECTED None;
    mk_handle SYSTEM_EVENT_AP_PROBEREQRECVED None;
    mk_handle SYSTEM_EVENT_MAX None ].

(** The entry [table[i]].  The array of event.c has SYSTEM_EVENT_MAX + 1
    entries and is only read below SYSTEM_EVENT_MAX; past the end of a
    shorter list the lookup gives the entry of the sentinel. *)
Definition table_at (table : list system_event_handle_t) (i : system_event_id_t)
  : system_event_handle_t :=
  nth (N.to_nat i) table (mk_handle SYSTEM_EVENT_MAX None).

(** The call through a function pointer of the table. *)
Definition call_event_handle (fn : system_event_handle_fn_t) (event : system_event_t)
  : M World esp_err_t :=
  match fn with
  | fn_system_event_ap_start_handle_default => system_event_ap_start_handle_default event
  | fn_system_event_ap_stop_handle_default => system_event_ap_stop_handle_default event
  | fn_system_event_sta_start_handle_default => system_event_sta_start_handle_default event
  | fn_system_event_sta_stop_handle_default => system_event_sta_stop_handle_default event
  | fn_system_event_sta_connected_handle_default =>
      system_event_sta_connected_handle_default event
  | fn_system_event_sta_disconnected_handle_default =>
      system_event_sta_disconnected_handle_default event
  | fn_system_event_sta_got_ip_default => system_event_sta_got_ip_default event
  end.

(** ** The broker *)

Definition esp_wifi_post_event_to_user (event : system_event_t) : M World esp_err_t :=
  cb <- gets g_event_handler_cb ;;
  match cb with
  | Some f => ctx <- gets g_event_ctx ;; call_user_cb f ctx event
  | None => ret ESP_OK
  end.

(** The kinds the switch of esp_system_event_debug names. *)
Definition debug_cases : list system_event_id_t :=
  [ SYSTEM_EVENT_WIFI_READY; SYSTEM_EVENT_SCAN_DONE; SYSTEM_EVENT_STA_START;
    SYSTEM_EVENT_STA_STOP; SYSTEM_EVENT_STA_CONNECTED; SYSTEM_EVENT_STA_DISCONNECTED;
    SYSTEM_EVENT_STA_AUTHMODE_CHANGE; SYSTEM_EVENT_STA_GOT_IP; SYSTEM_EVENT_AP_START;
    SYSTEM_EVENT_AP_STOP; SYSTEM_EVENT_AP_STACONNECTED; SYSTEM_EVENT_AP_STADISCONNECTED;
    SYSTEM_EVENT_AP_PROBEREQRECVED ].

Definition esp_system_event_debug (event : option system_event_t) : M World esp_err_t :=
  match event with
  | None => printf Print_event_is_null ;; ret ESP_FAIL
  | Some e =>
      (if existsb (N.eqb (event_id e)) debug_cases then ret tt
       else printf Print_no_such_kind_of_event) ;;
      ret ESP_OK
  end.

(** esp_system_event_handler, over the contents of the table (a static
    array that is not const; event.c never writes it). *)
Definition esp_system_event_handler_on (table : list system_event_handle_t)
    (event : option system_event_t) : M World esp_err_t :=
  match event with
  | None => printf Print_event_is_null ;; ret ESP_FAIL
  | Some e =>
      esp_system_event_debug event ;;
      (if (event_id e <? SYSTEM_EVENT_MAX)%N
          && (event_id e =? entry_event_id (table_at table (event_id e)))%N
       then
         match event_handle (table_at table (event_id e)) with
         | Some fn =>
             modify (add_history (Enter_default fn e)) ;;
             call_event_handle fn e ;;
             ret tt
         | None => ret tt
         end
       else printf (Print_mismatch_or_invalid_event (event_id e))) ;;
      esp_wifi_post_event_to_user e
  end.

Definition esp_system_event_handler (event : option system_event_t) : M World esp_err_t :=
  esp_system_event_handler_on g_system_event_handle_table event.

(** One turn of the loop of esp_system_event_task.  The receive waits
    without bound: on an empty queue the task stays suspended and the
    world is as it was. *)
Definition esp_system_event_task_turn : M World unit :=
  fun w =>
    match g_event_handler w with
    | Some q =>
        match xQueueReceive q portMAX_DELAY with
        | Some (evt, q') =>
            (r <- esp_system_event_handler (Some evt) ;;
             if Z.eqb r ESP_FAIL then printf Print_post_event_to_user_fail else ret tt)
              (add_history (Queue_receive evt) (set_g_event_handler (Some q') w))
        | None => (tt, w)
        end
    | None => (tt, w)
    end.

(** The loop has no exit; [esp_system_event_task n] is its first [n]
    turns. *)
Fixpoint esp_system_event_task (n : nat) : M World unit :=
  match n with
  | O => ret tt
  | S k => esp_system_event_task_turn ;; esp_system_event_task k
  end.

(** ** The registration API *)

Definition esp_event_set_cb (cb : option system_event_cb_t) (ctx : ctx_t)
  : M World (option system_event_cb_t) :=
  old_cb <- gets g_event_handler_cb ;;
  modify (set_g_event_handler_cb cb) ;;
  modify (set_g_event_ctx ctx) ;;
  ret old_cb.

Definition esp_event_get_handler : M World (option xQueue) := gets g_event_handler.

Definition esp_event_init (cb : option system_event_cb_t) (ctx : ctx_t) : M World esp_err_t :=
  flag <- gets event_init_flag ;;
  if flag then ret ESP_FAIL
  else
    modify (set_g_event_handler_cb cb) ;;
    modify (set_g_event_ctx ctx) ;;
    modify (set_g_event_handler (Some (xQueueCreate CONFIG_SYSTEM_EVENT_QUEUE_SIZE))) ;;
    modify (add_task eventTask) ;;
    ret ESP_OK.

(** ** The system at work *)

(** What can happen next: a producer outside event.c offers an event, or
    the broker task takes its next turn.  Each is one step: the queue
    keeps its own exclusion, and a send that a callback or another task
    makes while a turn is under way is the [Produce] that follows it. *)
Inductive action :=
  | Produce (e : system_event_t)
  | Consume.

Definition perform (a : action) : M World unit :=
  match a with
  | Produce e => esp_event_send (Some e) ;; ret tt
  | Consume => esp_system_event_task_turn
  end.

Fixpoint run (acts : list action) : M World unit :=
  match acts with
  | [] => ret tt
  | a :: rest => perform a ;; run rest
  end.

End Broker.

(** ** A simulated platform

    A small stand-in for the driver, the adapter layer and the
    application, to run the model on concrete inputs.  Its result codes
    are fields, so that a failing driver can be staged. *)

Record SimEnv := mk_sim {
  sim_reg_rxcb_result : esp_err_t;
  sim_get_mac_result : esp_err_t;
  sim_set_sta_ip_result : esp_err_t;
  sim_user_cb_result : esp_err_t;
  sim_sta_mac : mac_t;
  sim_ap_mac : mac_t;
  sim_sta_ip : tcpip_adapter_ip_info_t;
  sim_ap_ip : tcpip_adapter_ip_info_t;
  sim_sta_dhcp : tcpip_adapter_dhcp_status_t
}.

Definition sim_set_dhcp (s : tcpip_adapter_dhcp_status_t) (e : SimEnv) : SimEnv :=
  {| sim_reg_rxcb_result := sim_reg_rxcb_result e;
     sim_get_mac_result := sim_get_mac_result e;
     sim_set_sta_ip_result := sim_set_sta_ip_result e;
     sim_user_cb_result := sim_user_cb_result e;
     sim_sta_mac := sim_sta_mac e; sim_ap_mac := sim_ap_mac e;
     sim_sta_ip := sim_sta_ip e; sim_ap_ip := sim_ap_ip e;
     sim_sta_dhcp := s |}.

Definition SimPlatform (capacity : nat) : Platform :=
  {| Env := SimEnv;
     CONFIG_SYSTEM_EVENT_QUEUE_SIZE := capacity;
     esp_wifi_reg_rxcb := fun _ _ e => (sim_reg_rxcb_result e, e);
     esp_wifi_get_mac := fun ifx e =>
       ((sim_get_mac_result e,
         match ifx with WIFI_IF_AP => sim_ap_mac e | _ => sim_sta_mac e end), e);
     esp_wifi_set_sta_ip := fun e => (sim_set_sta_ip_result e, e);
     tcpip_adapter_get_ip_info := fun tcpip_if e =>
       ((ESP_OK,
         match tcpip_if with
         | TCPIP_ADAPTER_IF_STA => sim_sta_ip e
         | TCPIP_ADAPTER_IF_AP => sim_ap_ip e
         end), e);
     tcpip_adapter_start := fun _ _ _ e => (ESP_OK, e);
     tcpip_adapter_stop := fun _ e => (ESP_OK, e);
     tcpip_adapter_up := fun _ e => (ESP_OK, e);
     tcpip_adapter_down := fun _ e => (ESP_OK, e);
     tcpip_adapter_dhcpc_get_status := fun _ e => ((ESP_OK, sim_sta_dhcp e), e);
     tcpip_adapter_dhcpc_start := fun tcpip_if e =>
       (ESP_OK,
        match tcpip_if with
        | TCPIP_ADAPTER_IF_STA => sim_set_dhcp TCPIP_ADAPTER_DHCP_STARTED e
        | TCPIP_ADAPTER_IF_AP => e
        end);
     user_callback := fun _ _ _ e => (sim_user_cb_result e, e) |}.

(** 192.0.2.5 / 255.255.255.0 / 192.0.2.1, a static configuration. *)
Definition sim_static_ip : tcpip_adapter_ip_info_t :=
  {| ip := 3221225989%N; netmask := 4294967040%N; gw := 3221225985%N |}.

(** The same with no gateway. *)
Definition sim_static_ip_no_gw : tcpip_adapter_ip_info_t :=
  {| ip := 3221225989%N; netmask := 4294967040%N; gw := 0%N |}.

Definition sim_ap_ip_info : tcpip_adapter_ip_info_t :=
  {| ip := 3232236545%N; netmask := 4294967040%N; gw := 3232236545%N |}.

(** A healthy platform whose station has a static configuration. *)
Definition sim_env (sta_ip : tcpip_adapter_ip_info_t) : SimEnv :=
  {| sim_reg_rxcb_result := ESP_OK; sim_get_mac_result := ESP_OK;
     sim_set_sta_ip_result := ESP_OK; sim_user_cb_result := ESP_OK;
     sim_sta_mac := [36; 10; 196; 0; 0; 1]%N; sim_ap_mac := [36; 10; 196; 0; 0; 2]%N;
     sim_sta_ip := sta_ip; sim_ap_ip := sim_ap_ip_info;
     sim_sta_dhcp := TCPIP_ADAPTER_DHCP_STOPPED |}.

(** A platform whose driver refuses every call and whose application
    callback reports a failure. *)
Definition sim_env_failing : SimEnv :=
  {| sim_reg_rxcb_result := ESP_FAIL; sim_get_mac_result := ESP_FAIL;
     sim_set_sta_ip_result := ESP_FAIL; sim_user_cb_result := ESP_FAIL;
     sim_sta_mac := []; sim_ap_mac := [];
     sim_sta_ip := sim_static_ip; sim_ap_ip := sim_ap_ip_info;
     sim_sta_dhcp := TCPIP_ADAPTER_DHCP_STOPPED |}.

Definition ev (id : system_event_id_t) : system_event_t :=
  {| event_id := id; event_info := info_unset |}.

(** The world of the simulated platform after a first esp_event_init. *)
Definition sim_world (capacity : nat) (e : SimEnv) : @World (SimPlatform capacity) :=
  snd (@esp_event_init (SimPlatform capacity) (Some 1000%N) 77%N
         (@boot (SimPlatform capacity) e)).

(** A table whose entry at position SYSTEM_EVENT_STA_START stores the
    kind SYSTEM_EVENT_STA_STOP, to exercise the mismatch branch. *)
Definition sim_mismatched_table : list system_event_handle_t :=
  [ mk_handle SYSTEM_EVENT_WIFI_READY None;
    mk_handle SYSTEM_EVENT_SCAN_DONE None;
    mk_handle SYSTEM_EVENT_STA_STOP (Some fn_system_event_sta_start_handle_default);
    mk_handle SYSTEM_EVENT_STA_STOP (Some fn_system_event_sta_stop_handle_default) ].

(** A world whose queue of capacity 1 is full. *)
Definition sim_world_full : @World (SimPlatform 1) :=
  snd (@esp_event_send (SimPlatform 1) (Some (ev SYSTEM_EVENT_STA_START))
         (sim_world 1 (sim_env sim_static_ip))).

(** A world with a failing driver and a failing callback, two events
    waiting. *)
Definition sim_world_failing : @World (SimPlatform 32) :=
  snd (@run (SimPlatform 32)
         [ Produce (ev SYSTEM_EVENT_STA_CONNECTED); Produce (ev SYSTEM_EVENT_AP_START) ]
         (sim_world 32 sim_env_failing)).

(** An end-to-end scenario of the spec: adapter-start for the
    station, then station-associated with a stopped client and a static
    configuration, then three turns of the broker. *)
Definition scenario_static_ip : list action :=
  [ Produce (ev SYSTEM_EVENT_STA_START); Produce (ev SYSTEM_EVENT_STA_CONNECTED);
    Consume; Consume; Consume ].

(** ** Notions used by the statements *)

Section Notions.

Context {P : Platform}.

(** The default handler the broker runs for an event under a table: the
    entry's, when the kind is below the sentinel and the entry stores
    that very kind. *)
Definition default_handler_of (table : list system_event_handle_t) (e : system_event_t)
  : option system_event_handle_fn_t :=
  if (event_id e <? SYSTEM_EVENT_MAX)%N
     && (event_id e =? entry_event_id (table_at table (event_id e)))%N
  then event_handle (table_at table (event_id e))
  else None.

Definition has_default_handler (table : list system_event_handle_t) (e : system_event_t)
  : bool :=
  match default_handler_of table e with
  | Some _ => true
  | None => false
  end.

(** What the station-associated handler meets on its way, from the state
    [e0] of the collaborators at its entry: their state after the
    registration of the inbound-packet routine and after the link is
    brought up, the status the address-assignment client reports then,
    and the cached address configuration read after that. *)
Definition env_after_sta_up (e0 : Env) : Env :=
  snd (tcpip_adapter_up TCPIP_ADAPTER_IF_STA
         (snd (esp_wifi_reg_rxcb WIFI_IF_STA (Some tcpip_adapter_sta_input) e0))).

Definition sta_dhcp_status_found (e0 : Env) : tcpip_adapter_dhcp_status_t :=
  snd (fst (tcpip_adapter_dhcpc_get_status TCPIP_ADAPTER_IF_STA (env_after_sta_up e0))).

Definition env_after_sta_status (e0 : Env) : Env :=
  snd (tcpip_adapter_dhcpc_get_status TCPIP_ADAPTER_IF_STA (env_after_sta_up e0)).

Definition sta_ip_found (e0 : Env) : tcpip_adapter_ip_info_t :=
  snd (fst (tcpip_adapter_get_ip_info TCPIP_ADAPTER_IF_STA (env_after_sta_status e0))).

Definition env_after_sta_ip_info (e0 : Env) : Env :=
  snd (tcpip_adapter_get_ip_info TCPIP_ADAPTER_IF_STA (env_after_sta_status e0)).

(** The calls the station-associated handler makes up to the reading of
    the cached configuration. *)
Definition sta_connected_calls : list history_item :=
  [ Call_esp_wifi_reg_rxcb WIFI_IF_STA (Some tcpip_adapter_sta_input);
    Call_tcpip_adapter_up TCPIP_ADAPTER_IF_STA;
    Call_tcpip_adapter_dhcpc_get_status TCPIP_ADAPTER_IF_STA;
    Call_tcpip_adapter_get_ip_info TCPIP_ADAPTER_IF_STA ].

(** The world the station-associated handler has reached when it has
    read the cached configuration. *)
Definition world_after_sta_connected_calls (w : World) : World :=
  add_history (Call_tcpip_adapter_get_ip_info TCPIP_ADAPTER_IF_STA)
    (set_env (env_after_sta_ip_info (env w))
       (add_history (Call_tcpip_adapter_dhcpc_get_status TCPIP_ADAPTER_IF_STA)
          (add_history (Call_tcpip_adapter_up TCPIP_ADAPTER_IF_STA)
             (add_history
                (Call_esp_wifi_reg_rxcb WIFI_IF_STA (Some tcpip_adapter_sta_input)) w)))).

(** An event whose default-handler stage the broker skips under a table:
    its kind is not below the sentinel, or the entry at its kind stores
    another kind. *)
Definition kind_invalid_or_mismatched (table : list system_event_handle_t)
    (e : system_event_t) : Prop :=
  (SYSTEM_EVENT_MAX <= event_id e)%N
  \/ entry_event_id (table_at table (event_id e)) <> event_id e.

(** The broker's turns among a list of actions. *)
Definition turns (acts : list action) : nat :=
  length (filter (fun a => match a with Consume => true | Produce _ => false end) acts).

(** The default-handler stage of esp_system_event_handler (lines 291 to
    299), named so that it can be spoken of on its own. *)
Definition default_handler_stage (table : list system_event_handle_t) (e : system_event_t)
  : M World unit :=
  if (event_id e <? SYSTEM_EVENT_MAX)%N
     && (event_id e =? entry_event_id (table_at table (event_id e)))%N
  then
    match event_handle (table_at table (event_id e)) with
    | Some fn =>
        modify (add_history (Enter_default fn e)) ;;
        call_event_handle fn e ;;
        ret tt
    | None => ret tt
    end
  else printf (Print_mismatch_or_invalid_event (event_id e)).

(** A step from [w] to [w'] that adds [h] to the history, takes the
    events [dq] from the queue, hands [dl] to the application and enters
    a default handler for [ds]: what waited before, followed by what the
    step enqueued, is what was taken followed by what waits now; the
    registration and the other statics stay. *)
Record step (w w' : World) (h : list history_item) (dq dl ds : list system_event_t)
  : Prop := mk_step {
  st_history : history w' = history w ++ h;
  st_dequeued : dequeued h = dq;
  st_delivered : delivered h = dl;
  st_default : default_stage h = ds;
  st_pending : pending w ++ enqueued h = dq ++ pending w';
  st_cb : g_event_handler_cb w' = g_event_handler_cb w;
  st_ctx : g_event_ctx w' = g_event_ctx w;
  st_flag : event_init_flag w' = event_init_flag w;
  st_tasks : tasks w' = tasks w
}.

(** A quiet computation neither takes an event from the queue nor enters
    a default handler nor calls the application. *)
Definition Quiet {A : Type} (m : M World A) : Prop :=
  forall w, exists h, step w (snd (m w)) h [] [] [].

(** The calls of the API of event.c, with the turns of the broker task
    among them. *)
Inductive api_call :=
  | Api_init (cb : option system_event_cb_t) (ctx : ctx_t)
  | Api_set_cb (cb : option system_event_cb_t) (ctx : ctx_t)
  | Api_send (e : system_event_t)
  | Api_turn.

Definition perform_api (c : api_call) : M World unit :=
  match c with
  | Api_init cb ctx => esp_event_init cb ctx ;; ret tt
  | Api_set_cb cb ctx => esp_event_set_cb cb ctx ;; ret tt
  | Api_send e => esp_event_send (Some e) ;; ret tt
  | Api_turn => esp_system_event_task_turn
  end.

Fixpoint run_api (calls : list api_call) : M World unit :=
  match calls with
  | [] => ret tt
  | c :: rest => perform_api c ;; run_api rest
  end.

(** The queue of a world, once created, has the configured capacity and
    holds no more events than that. *)
Definition queue_within_capacity (w : World) : Prop :=
  match g_event_handler w with
  | Some q =>
      uxLength q = CONFIG_SYSTEM_EVENT_QUEUE_SIZE /\ length (items q) <= uxLength q
  | None => True
  end.

(** A computation respects a relation between worlds when every run of
    it relates the world before to the world after. *)
Definition Respects {A : Type} (R : World -> World -> Prop) (m : M World A) : Prop :=
  forall w, R w (snd (m w)).

(** The step keeps the queue within its capacity. *)
Definition keeps_capacity (w w' : World) : Prop :=
  queue_within_capacity w -> queue_within_capacity w'.

(** The step offers nothing to the queue and leaves it alone. *)
Definition sends_nothing (w w' : World) : Prop :=
  exists h, history w' = history w ++ h
            /\ send_attempts h = []
            /\ g_event_handler w' = g_event_handler w.

(** The step offers to the queue only events that [allowed] admits. *)
Definition sends_only (allowed : system_event_t -> Prop) (w w' : World) : Prop :=
  exists h, history w' = history w ++ h /\ Forall allowed (send_attempts h).

(** The turns a waiting event can cost the broker: a station-associated
    event may put one address-acquired event behind it, no other event
    puts anything. *)
Definition event_weight (e : system_event_t) : nat :=
  if N.eqb (event_id e) SYSTEM_EVENT_STA_CONNECTED then 2 else 1.

Definition queue_weight (l : list system_event_t) : nat :=
  list_sum (map event_weight l).

(** An address-acquired event with a usable configuration: its kind is
    SYSTEM_EVENT_STA_GOT_IP and its payload is an address configuration
    whose address, mask and gateway are all non-zero. *)
Definition is_valid_got_ip (e : system_event_t) : Prop :=
  event_id e = SYSTEM_EVENT_STA_GOT_IP
  /\ exists sta_ip, event_info e = info_got_ip sta_ip
                    /\ ip sta_ip <> 0%N /\ netmask sta_ip <> 0%N /\ gw sta_ip <> 0%N.

End Notions.

(** * Properties *)

Section Proofs.

Context {P : Platform}.

(** ** Reading the history *)

Lemma enqueued_app (h1 h2 : list history_item) :
  enqueued (h1 ++ h2) = enqueued h1 ++ enqueued h2.
Proof. apply flat_map_app. Qed.

Lemma send_attempts_app (h1 h2 : list history_item) :
  send_attempts (h1 ++ h2) = send_attempts h1 ++ send_attempts h2.
Proof. apply flat_map_app. Qed.

Lemma suspensions_app (h1 h2 : list history_item) :
  suspensions (h1 ++ h2) = suspensions h1 ++ suspensions h2.
Proof. apply flat_map_app. Qed.

Lemma dequeued_app (h1 h2 : list history_item) :
  dequeued (h1 ++ h2) = dequeued h1 ++ dequeued h2.
Proof. apply flat_map_app. Qed.

Lemma default_stage_app (h1 h2 : list history_item) :
  default_stage (h1 ++ h2) = default_stage h1 ++ default_stage h2.
Proof. apply flat_map_app. Qed.

Lemma delivered_app (h1 h2 : list history_item) :
  delivered (h1 ++ h2) = delivered h1 ++ delivered h2.
Proof. apply flat_map_app. Qed.

Lemma adapter_calls_app (h1 h2 : list history_item) :
  adapter_calls (h1 ++ h2) = adapter_calls h1 ++ adapter_calls h2.
Proof. apply filter_app. Qed.

(** ** Steps compose *)

Lemma step_refl (w : World) : step w w [] [] [] [].
Proof.
  constructor; try reflexivity; now rewrite app_nil_r.
Qed.

Lemma step_trans {w1 w2 w3 : World} {h1 h2 : list history_item}
    {dq1 dq2 dl1 dl2 ds1 ds2 : list system_event_t} :
  step w1 w2 h1 dq1 dl1 ds1 -> step w2 w3 h2 dq2 dl2 ds2 ->
  step w1 w3 (h1 ++ h2) (dq1 ++ dq2) (dl1 ++ dl2) (ds1 ++ ds2).
Proof.
  intros [H1 D1 U1 S1 Q1 C1 X1 F1 T1] [H2 D2 U2 S2 Q2 C2 X2 F2 T2].
  constructor.
  - now rewrite H2, H1, app_assoc.
  - now rewrite dequeued_app, D1, D2.
  - now rewrite delivered_app, U1, U2.
  - now rewrite default_stage_app, S1, S2.
  - now rewrite enqueued_app, app_assoc, Q1, <- app_assoc, Q2, app_assoc.
  - congruence.
  - congruence.
  - congruence.
  - congruence.
Qed.

Lemma step_cb {w w' : World} {h : list history_item} {dq dl ds : list system_event_t} :
  step w w' h dq dl ds -> g_event_handler_cb w' = g_event_handler_cb w.
Proof. intros []; assumption. Qed.

Lemma Quiet_ret {A : Type} (a : A) : Quiet (ret a).
Proof. intro w. exists []. apply step_refl. Qed.

Lemma Quiet_bind {A B : Type} (m : M World A) (k : A -> M World B) :
  Quiet m -> (forall a, Quiet (k a)) -> Quiet (bind m k).
Proof.
  intros Hm Hk w. unfold bind.
  destruct (Hm w) as [h1 S1].
  destruct (Hk (fst (m w)) (snd (m w))) as [h2 S2].
  exists (h1 ++ h2). exact (step_trans S1 S2).
Qed.

Lemma Quiet_if {A : Type} (b : bool) (m1 m2 : M World A) :
  Quiet m1 -> Quiet m2 -> Quiet (if b then m1 else m2).
Proof. destruct b; auto. Qed.

Lemma Quiet_gets {A : Type} (f : World -> A) : Quiet (gets f).
Proof. intro w. exists []. apply step_refl. Qed.

Lemma Quiet_printf (l : console_line) : Quiet (printf l).
Proof.
  intro w. exists []. constructor; try reflexivity; simpl.
  - now rewrite app_nil_r.
  - unfold pending. simpl. now rewrite app_nil_r.
Qed.

Lemma Quiet_extern {A : Type} (i : history_item) (f : Env -> A * Env) :
  is_adapter_call i = true -> Quiet (extern i f).
Proof.
  intros Hi w. exists [i].
  constructor; try reflexivity; simpl;
    try (destruct i; simpl in *; (discriminate || reflexivity)).
  unfold pending; simpl.
  destruct i; simpl in *; try discriminate; now rewrite app_nil_r.
Qed.

Lemma Quiet_WIFI_API_CALL_CHECK (api_call : M World esp_err_t) (expected : esp_err_t)
    (k : M World esp_err_t) :
  Quiet api_call -> Quiet k -> Quiet (WIFI_API_CALL_CHECK api_call expected k).
Proof.
  intros Ha Hk. unfold WIFI_API_CALL_CHECK.
  apply Quiet_bind; [assumption|]. intro a.
  apply Quiet_if; [apply Quiet_ret | assumption].
Qed.

Lemma xQueueSendToBack_room (q : xQueue) (e : system_event_t) (t : N) :
  length (items q) < uxLength q ->
  xQueueSendToBack q e t
  = (pdPASS, {| uxLength := uxLength q; items := items q ++ [e] |}, 0%N).
Proof.
  intro H. unfold xQueueSendToBack.
  destruct (Nat.ltb_spec (length (items q)) (uxLength q)); [reflexivity | lia].
Qed.

Lemma xQueueSendToBack_full (q : xQueue) (e : system_event_t) (t : N) :
  uxLength q <= length (items q) ->
  xQueueSendToBack q e t = (errQUEUE_FULL, q, t).
Proof.
  intro H. unfold xQueueSendToBack.
  destruct (Nat.ltb_spec (length (items q)) (uxLength q)); [lia | reflexivity].
Qed.

Lemma Quiet_esp_event_send (event : option system_event_t) : Quiet (esp_event_send event).
Proof.
  intro w. unfold esp_event_send, bind, call_xQueueSendToBack.
  destruct (g_event_handler w) as [q|] eqn:Hq.
  - destruct event as [e|].
    + unfold xQueueSendToBack.
      destruct (length (items q) <? uxLength q) eqn:Hroom; simpl.
      * exists [Queue_send e pdPASS 0%N].
        constructor; try reflexivity.
        unfold pending; simpl. rewrite Hq. reflexivity.
      * exists [Queue_send e errQUEUE_FULL 0%N].
        constructor; try reflexivity.
        unfold pending; simpl. rewrite Hq. simpl. now rewrite app_nil_r.
    + simpl. exists []. constructor; try reflexivity; simpl.
      * now rewrite app_nil_r.
      * unfold pending; simpl. now rewrite app_nil_r.
  - assert (E : pending w = []) by (unfold pending; now rewrite Hq).
    exists []. destruct event; simpl; constructor; try reflexivity; simpl;
      try (now rewrite app_nil_r);
      unfold pending; simpl; rewrite Hq; reflexivity.
Qed.

Ltac quiet :=
  repeat match goal with
         | |- Quiet (ret _) => apply Quiet_ret
         | |- Quiet (gets _) => apply Quiet_gets
         | |- Quiet (printf _) => apply Quiet_printf
         | |- Quiet (esp_event_send _) => apply Quiet_esp_event_send
         | |- Quiet (extern _ _) => apply Quiet_extern; reflexivity
         | |- Quiet (WIFI_API_CALL_CHECK _ _ _) => apply Quiet_WIFI_API_CALL_CHECK
         | |- Quiet (bind _ _) => apply Quiet_bind; [| intro]
         | |- Quiet (if _ then _ else _) => apply Quiet_if
         end.

Lemma Quiet_call_event_handle (fn : system_event_handle_fn_t) (e : system_event_t) :
  Quiet (call_event_handle fn e).
Proof.
  destruct fn; simpl;
    unfold system_event_ap_start_handle_default, system_event_ap_stop_handle_default,
      system_event_sta_start_handle_default, system_event_sta_stop_handle_default,
      system_event_sta_connected_handle_default,
      system_event_sta_disconnected_handle_default, system_event_sta_got_ip_default,
      call_esp_wifi_reg_rxcb, call_esp_wifi_get_mac, call_esp_wifi_set_sta_ip,
      call_tcpip_adapter_get_ip_info, call_tcpip_adapter_start, call_tcpip_adapter_stop,
      call_tcpip_adapter_up, call_tcpip_adapter_down,
      call_tcpip_adapter_dhcpc_get_status, call_tcpip_adapter_dhcpc_start;
    quiet.
Qed.

Lemma Quiet_esp_system_event_debug (event : option system_event_t) :
  Quiet (esp_system_event_debug event).
Proof. destruct event; simpl; quiet. Qed.

(** ** The stages of the per-event handling *)

Lemma esp_system_event_handler_on_stages (table : list system_event_handle_t)
    (e : system_event_t) :
  esp_system_event_handler_on table (Some e) =
  (esp_system_event_debug (Some e) ;;
   default_handler_stage table e ;;
   esp_wifi_post_event_to_user e).
Proof. reflexivity. Qed.

Lemma default_handler_stage_step (table : list system_event_handle_t) (e : system_event_t)
    (w : World) :
  exists h, step w (snd (default_handler_stage table e w)) h [] []
                 (if has_default_handler table e then [e] else []).
Proof.
  unfold default_handler_stage, has_default_handler, default_handler_of.
  destruct ((event_id e <? SYSTEM_EVENT_MAX)%N
            && (event_id e =? entry_event_id (table_at table (event_id e)))%N).
  - destruct (event_handle (table_at table (event_id e))) as [fn|].
    + unfold bind; simpl.
      destruct (Quiet_call_event_handle fn e (add_history (Enter_default fn e) w))
        as [h S].
      exists ([Enter_default fn e] ++ h).
      refine (step_trans (dq1 := []) (dl1 := []) (ds1 := [e]) _ S).
      constructor; try reflexivity.
      unfold pending; simpl. now rewrite app_nil_r.
    + exists []. apply step_refl.
  - apply Quiet_printf.
Qed.

Lemma esp_wifi_post_event_to_user_step (e : system_event_t) (w : World) :
  exists h, step w (snd (esp_wifi_post_event_to_user e w)) h []
                 (match g_event_handler_cb w with Some _ => [e] | None => [] end) [].
Proof.
  unfold esp_wifi_post_event_to_user, bind, gets; simpl.
  destruct (g_event_handler_cb w) as [f|].
  - exists [Call_user_cb f (g_event_ctx w) e]. simpl.
    constructor; try reflexivity.
    unfold pending; simpl. now rewrite app_nil_r.
  - exists []. apply step_refl.
Qed.

Lemma esp_system_event_handler_on_step (table : list system_event_handle_t)
    (e : system_event_t) (w : World) :
  exists h, step w (snd (esp_system_event_handler_on table (Some e) w)) h []
                 (match g_event_handler_cb w with Some _ => [e] | None => [] end)
                 (if has_default_handler table e then [e] else []).
Proof.
  rewrite esp_system_event_handler_on_stages. unfold bind.
  destruct (Quiet_esp_system_event_debug (Some e) w) as [h1 S1].
  set (w1 := snd (esp_system_event_debug (Some e) w)) in *.
  destruct (default_handler_stage_step table e w1) as [h2 S2].
  set (w2 := snd (default_handler_stage table e w1)) in *.
  destruct (esp_wifi_post_event_to_user_step e w2) as [h3 S3].
  exists (h1 ++ h2 ++ h3).
  assert (C : g_event_handler_cb w2 = g_event_handler_cb w).
  { rewrite (step_cb S2). apply (step_cb S1). }
  rewrite C in S3.
  pose proof (step_trans S1 (step_trans S2 S3)) as S.
  simpl in S. rewrite app_nil_r in S. exact S.
Qed.

(** ** One turn of the broker, one action, a run *)

Lemma esp_system_event_task_turn_step (w : World) :
  exists h dq,
    step w (snd (esp_system_event_task_turn w)) h dq
         (match g_event_handler_cb w with Some _ => dq | None => [] end)
         (filter (has_default_handler g_system_event_handle_table) dq)
    /\ dq = firstn 1 (pending w).
Proof.
  unfold esp_system_event_task_turn, pending.
  destruct (g_event_handler w) as [q|] eqn:Hq.
  - unfold xQueueReceive. destruct (items q) as [|e rest] eqn:Hi.
    + exists [], []. split; [|reflexivity].
      destruct (g_event_handler_cb w); apply step_refl.
    + set (w0 := add_history (Queue_receive e)
                   (set_g_event_handler (Some {| uxLength := uxLength q; items := rest |}) w)).
      assert (S0 : step w w0 [Queue_receive e] [e] [] []).
      { constructor; try reflexivity.
        unfold pending; simpl. rewrite Hq, Hi. now rewrite app_nil_r. }
      unfold bind.
      destruct (esp_system_event_handler_on_step g_system_event_handle_table e w0)
        as [h1 S1].
      fold (esp_system_event_handler (Some e)) in S1.
      set (w1 := snd (esp_system_event_handler (Some e) w0)) in *.
      assert (Q : Quiet (if Z.eqb (fst (esp_system_event_handler (Some e) w0)) ESP_FAIL
                         then printf Print_post_event_to_user_fail else ret tt))
        by quiet.
      destruct (Q w1) as [h2 S2].
      exists ([Queue_receive e] ++ h1 ++ h2), [e]. split; [|reflexivity].
      pose proof (step_trans S0 (step_trans S1 S2)) as S.
      simpl in S. simpl.
      replace (g_event_handler_cb w0) with (g_event_handler_cb w) in S by reflexivity.
      destruct (g_event_handler_cb w), (has_default_handler g_system_event_handle_table e);
        simpl in S; exact S.
  - exists [], []. split; [|reflexivity].
    destruct (g_event_handler_cb w); apply step_refl.
Qed.

Lemma perform_step (a : action) (w : World) :
  exists h dq,
    step w (snd (perform a w)) h dq
         (match g_event_handler_cb w with Some _ => dq | None => [] end)
         (filter (has_default_handler g_system_event_handle_table) dq)
    /\ length dq <= turns [a].
Proof.
  destruct a as [e|]; simpl.
  - assert (Q : Quiet (esp_event_send (Some e) ;; ret tt)) by quiet.
    destruct (Q w) as [h S]. exists h, []. split; [|simpl; lia].
    destruct (g_event_handler_cb w); exact S.
  - destruct (esp_system_event_task_turn_step w) as (h & dq & S & E).
    exists h, dq. split; [exact S|].
    subst dq. unfold turns; simpl. destruct (pending w); simpl; lia.
Qed.

Lemma run_step (acts : list action) (w : World) :
  exists h dq,
    step w (snd (run acts w)) h dq
         (match g_event_handler_cb w with Some _ => dq | None => [] end)
         (filter (has_default_handler g_system_event_handle_table) dq)
    /\ length dq <= turns acts.
Proof.
  revert w. induction acts as [|a rest IH]; intro w.
  - exists [], []. split; [|simpl; lia].
    destruct (g_event_handler_cb w); apply step_refl.
  - simpl. unfold bind.
    destruct (perform_step a w) as (h1 & dq1 & S1 & L1).
    destruct (IH (snd (perform a w))) as (h2 & dq2 & S2 & L2).
    exists (h1 ++ h2), (dq1 ++ dq2). split.
    + rewrite (step_cb S1) in S2.
      pose proof (step_trans S1 S2) as S.
      rewrite filter_app.
      destruct (g_event_handler_cb w); exact S.
    + rewrite length_app.
      change (a :: rest) with ([a] ++ rest).
      unfold turns in *. rewrite filter_app, length_app. lia.
Qed.

(** ** Delivery order *)

(** C1.  Whatever producers and broker turns are interleaved, from any
    world: the events taken from the queue during the run, followed by
    those still waiting, are the events that waited at the start followed
    by the events the queue accepted during the run, in the order of
    their enqueue calls, those a default handler synthesized included.
    The events handed to the registered callback are the events taken, in
    that order, and the default-handler stage was entered for those of
    them that have a default handler, in that order.  A turn of the
    broker takes the event at the front and no other: what a handler
    enqueues during the turn waits behind everything that was queued. *)
Theorem fifo_delivery_order :
  (forall (acts : list action) (w : World),
     exists h : list history_item,
       history (snd (run acts w)) = history w ++ h
       /\ pending w ++ enqueued h = dequeued h ++ pending (snd (run acts w))
       /\ delivered h =
            match g_event_handler_cb w with Some _ => dequeued h | None => [] end
       /\ default_stage h =
            filter (has_default_handler g_system_event_handle_table) (dequeued h)
       /\ length (dequeued h) <= turns acts)
  /\
  (forall w : World,
     exists h : list history_item,
       history (snd (esp_system_event_task_turn w)) = history w ++ h
       /\ dequeued h = firstn 1 (pending w)
       /\ pending (snd (esp_system_event_task_turn w)) = skipn 1 (pending w) ++ enqueued h
       /\ delivered h =
            match g_event_handler_cb w with Some _ => firstn 1 (pending w) | None => [] end).
Proof.
  split.
  - intros acts w.
    destruct (run_step acts w) as (h & dq & S & L).
    destruct S as [H D U T Q _ _ _ _].
    rewrite <- D in U, T, Q, L. clear D.
    exists h. repeat split; assumption.
  - intro w.
    destruct (esp_system_event_task_turn_step w) as (h & dq & S & E).
    destruct S as [H D U T Q _ _ _ _].
    rewrite E in D, U, Q. clear E T.
    exists h. repeat split; try assumption.
    clear - Q.
    rewrite <- (firstn_skipn 1 (pending w)) in Q at 1.
    rewrite <- app_assoc in Q.
    apply app_inv_head in Q. symmetry. exact Q.
Qed.

(** ** Enqueue *)

(** C5.  On an existing queue, esp_event_send with room appends the
    event at the back and returns ESP_OK; on a full queue it returns
    ESP_FAIL, the event is not stored, and the queue, its contents and
    their order are what they were.  In both cases the call offers the
    event to the queue once, with a wait of 0, and its caller spends no
    tick suspended: the refusal of a full queue comes at once. *)
Theorem esp_event_send_bounded (e : system_event_t) (w : World) (q : xQueue) :
  g_event_handler w = Some q ->
  (length (items q) < uxLength q ->
     fst (esp_event_send (Some e) w) = ESP_OK
     /\ g_event_handler (snd (esp_event_send (Some e) w))
        = Some {| uxLength := uxLength q; items := items q ++ [e] |}
     /\ pending (snd (esp_event_send (Some e) w)) = pending w ++ [e]
     /\ history (snd (esp_event_send (Some e) w))
        = history w ++ [Queue_send e pdPASS 0%N]
     /\ suspensions (history (snd (esp_event_send (Some e) w)))
        = suspensions (history w) ++ [0%N])
  /\
  (uxLength q <= length (items q) ->
     fst (esp_event_send (Some e) w) = ESP_FAIL
     /\ g_event_handler (snd (esp_event_send (Some e) w)) = Some q
     /\ pending (snd (esp_event_send (Some e) w)) = pending w
     /\ enqueued (history (snd (esp_event_send (Some e) w))) = enqueued (history w)
     /\ console (snd (esp_event_send (Some e) w))
        = console w ++ [Print_send_failed (Some (event_id e))]
     /\ history (snd (esp_event_send (Some e) w))
        = history w ++ [Queue_send e errQUEUE_FULL 0%N]
     /\ suspensions (history (snd (esp_event_send (Some e) w)))
        = suspensions (history w) ++ [0%N]).
Proof.
  intro Hq. unfold esp_event_send, bind, call_xQueueSendToBack, pending.
  rewrite Hq. split; intro Hlen.
  - rewrite xQueueSendToBack_room by assumption. simpl.
    repeat split; try reflexivity.
    now rewrite suspensions_app.
  - rewrite xQueueSendToBack_full by assumption. simpl.
    repeat split; try reflexivity.
    + rewrite enqueued_app. simpl. now rewrite app_nil_r.
    + now rewrite suspensions_app.
Qed.

(** ** A null event *)

(** C9.  A null event handed to the per-event handling is reported on the
    console and dropped: the result is ESP_FAIL, and nothing else of the
    world changes, so that no default handler is entered and the
    registered callback is not called. *)
Theorem null_event_dropped (table : list system_event_handle_t) (w : World) :
  esp_system_event_handler_on table None w = (ESP_FAIL, add_console Print_event_is_null w)
  /\ history (snd (esp_system_event_handler_on table None w)) = history w
  /\ env (snd (esp_system_event_handler_on table None w)) = env w.
Proof. repeat split. Qed.

(** ** The station-associated handler and a static configuration *)

Lemma static_ip_is_valid_true (sta_ip : tcpip_adapter_ip_info_t) :
  static_ip_is_valid sta_ip = true <->
  ip sta_ip <> 0%N /\ netmask sta_ip <> 0%N /\ gw sta_ip <> 0%N.
Proof.
  unfold static_ip_is_valid, ip4_addr_isany_val, IPADDR_ANY.
  rewrite negb_true_iff, !orb_false_iff, !N.eqb_neq. tauto.
Qed.

Lemma static_ip_is_valid_false (sta_ip : tcpip_adapter_ip_info_t) :
  static_ip_is_valid sta_ip = false <->
  ip sta_ip = 0%N \/ netmask sta_ip = 0%N \/ gw sta_ip = 0%N.
Proof.
  unfold static_ip_is_valid, ip4_addr_isany_val, IPADDR_ANY.
  rewrite negb_false_iff, !orb_true_iff, !N.eqb_eq. tauto.
Qed.

Lemma sta_connected_stopped_tail (event : system_event_t) (w : World) :
  fst (esp_wifi_reg_rxcb WIFI_IF_STA (Some tcpip_adapter_sta_input) (env w)) = ESP_OK ->
  sta_dhcp_status_found (env w) = TCPIP_ADAPTER_DHCP_STOPPED ->
  snd (system_event_sta_connected_handle_default event w)
  = snd ((if static_ip_is_valid (sta_ip_found (env w))
          then esp_event_send (Some (got_ip_event (sta_ip_found (env w)))) ;; ret tt
          else ret tt)
           (world_after_sta_connected_calls w)).
Proof.
  intros Hreg Hst.
  unfold sta_dhcp_status_found, env_after_sta_up in Hst.
  unfold system_event_sta_connected_handle_default, WIFI_API_CALL_CHECK, bind,
    call_esp_wifi_reg_rxcb, call_tcpip_adapter_up, call_tcpip_adapter_dhcpc_get_status,
    call_tcpip_adapter_get_ip_info, extern, ret.
  cbn [fst snd env set_env add_history]. rewrite Hreg.
  cbn [negb Z.eqb ESP_OK fst snd env set_env add_history]. rewrite Hst.
  cbn [tcpip_adapter_dhcp_status_eqb fst snd env set_env add_history].
  unfold world_after_sta_connected_calls, sta_ip_found, env_after_sta_ip_info,
    env_after_sta_status, env_after_sta_up.
  destruct (static_ip_is_valid _); reflexivity.
Qed.

Lemma sta_connected_registered_result (event : system_event_t) (w : World) :
  fst (esp_wifi_reg_rxcb WIFI_IF_STA (Some tcpip_adapter_sta_input) (env w)) = ESP_OK ->
  fst (system_event_sta_connected_handle_default event w) = ESP_OK.
Proof.
  intros Hreg.
  unfold system_event_sta_connected_handle_default, WIFI_API_CALL_CHECK, bind,
    call_esp_wifi_reg_rxcb, extern, ret.
  cbn [fst snd env set_env add_history]. rewrite Hreg.
  reflexivity.
Qed.

(** C2, as the code has it.  The station-associated handler runs in a
    world with a queue; the registration of the inbound-packet routine
    succeeded, so that it reaches the status query, and the status found
    is stopped.  When address, mask and gateway of the cached
    configuration are all non-zero, the handler offers to the back of the
    queue, with a wait of 0, exactly one event: its kind is
    SYSTEM_EVENT_STA_GOT_IP and its payload is that configuration.  With
    room in the queue the event becomes its last element; on a full queue
    the event is dropped, the refusal printed and the queue left as it
    was.  The handler does nothing after the offer and returns ESP_OK
    either way.  When one of the three fields is zero, the handler stops
    after reading the configuration: nothing is offered to the queue,
    nothing printed, no further call made. *)
Theorem sta_connected_static_ip (event : system_event_t) (w : World) (q : xQueue) :
  g_event_handler w = Some q ->
  fst (esp_wifi_reg_rxcb WIFI_IF_STA (Some tcpip_adapter_sta_input) (env w)) = ESP_OK ->
  sta_dhcp_status_found (env w) = TCPIP_ADAPTER_DHCP_STOPPED ->
  let sta_ip := sta_ip_found (env w) in
  let evt := {| event_id := SYSTEM_EVENT_STA_GOT_IP; event_info := info_got_ip sta_ip |} in
  let r := system_event_sta_connected_handle_default event w in
  (ip sta_ip <> 0%N /\ netmask sta_ip <> 0%N /\ gw sta_ip <> 0%N ->
     fst r = ESP_OK
     /\ env (snd r) = env_after_sta_ip_info (env w)
     /\ (length (items q) < uxLength q ->
           history (snd r)
           = history w ++ sta_connected_calls ++ [Queue_send evt pdPASS 0%N]
           /\ g_event_handler (snd r)
              = Some {| uxLength := uxLength q; items := items q ++ [evt] |}
           /\ console (snd r) = console w)
     /\ (uxLength q <= length (items q) ->
           history (snd r)
           = history w ++ sta_connected_calls ++ [Queue_send evt errQUEUE_FULL 0%N]
           /\ g_event_handler (snd r) = Some q
           /\ console (snd r)
              = console w ++ [Print_send_failed (Some SYSTEM_EVENT_STA_GOT_IP)]))
  /\
  (ip sta_ip = 0%N \/ netmask sta_ip = 0%N \/ gw sta_ip = 0%N ->
     fst r = ESP_OK
     /\ env (snd r) = env_after_sta_ip_info (env w)
     /\ history (snd r) = history w ++ sta_connected_calls
     /\ g_event_handler (snd r) = Some q
     /\ console (snd r) = console w).
Proof.
  intros Hq Hreg Hst sta_ip evt r.
  assert (E := sta_connected_stopped_tail event w Hreg Hst).
  assert (R := sta_connected_registered_result event w Hreg).
  fold sta_ip in E. fold r in E, R. unfold world_after_sta_connected_calls in E.
  split.
  - intro Hv. apply static_ip_is_valid_true in Hv. rewrite Hv in E.
    change (got_ip_event sta_ip) with evt in E.
    split; [exact R|].
    rewrite E. unfold esp_event_send, bind, call_xQueueSendToBack.
    cbn [g_event_handler add_history set_env]. rewrite Hq.
    split; [|split].
    + cbn [fst snd]. destruct (negb _); reflexivity.
    + intro Hroom. rewrite xQueueSendToBack_room by assumption.
      cbn. rewrite <- !app_assoc. auto.
    + intro Hfull. rewrite xQueueSendToBack_full by assumption.
      cbn. rewrite <- !app_assoc. auto.
  - intro Hz. apply static_ip_is_valid_false in Hz. rewrite Hz in E.
    split; [exact R|].
    rewrite E. cbn. rewrite <- !app_assoc. auto.
Qed.

(** ** Initializing twice *)

(** C3, what the code does.  esp_event_init tests event_init_flag and
    never sets it: the flag is after the call what it was before.  A
    second call from boot therefore succeeds as the first did; it
    installs its own callback and context, replaces the queue with a new
    empty one and creates a second task. *)
Theorem esp_event_init_twice (e : Env) (cb1 cb2 : option system_event_cb_t)
    (ctx1 ctx2 : ctx_t) :
  let w1 := snd (esp_event_init cb1 ctx1 (boot e)) in
  let w2 := snd (esp_event_init cb2 ctx2 w1) in
  event_init_flag w1 = false
  /\ fst (esp_event_init cb2 ctx2 w1) = ESP_OK
  /\ g_event_handler_cb w2 = cb2
  /\ g_event_ctx w2 = ctx2
  /\ tasks w1 = [eventTask]
  /\ tasks w2 = [eventTask; eventTask]
  /\ g_event_handler w2 = Some (xQueueCreate CONFIG_SYSTEM_EVENT_QUEUE_SIZE)
  /\ (forall w : World,
        event_init_flag (snd (esp_event_init cb2 ctx2 w)) = event_init_flag w).
Proof.
  cbn. repeat split.
  intro w. unfold esp_event_init, bind, gets. cbn.
  destruct (event_init_flag w) eqn:F; cbn; auto.
Qed.

(** ** Events of an invalid kind *)

Lemma default_handler_stage_invalid (table : list system_event_handle_t)
    (e : system_event_t) :
  kind_invalid_or_mismatched table e ->
  default_handler_stage table e = printf (Print_mismatch_or_invalid_event (event_id e)).
Proof.
  intros [H|H]; unfold default_handler_stage.
  - destruct (N.ltb_spec (event_id e) SYSTEM_EVENT_MAX); [lia | reflexivity].
  - destruct (N.eqb_spec (event_id e) (entry_event_id (table_at table (event_id e))))
      as [E|E]; [congruence | now rewrite andb_false_r].
Qed.

Lemma default_handler_stage_valid (table : list system_event_handle_t)
    (e : system_event_t) :
  (event_id e < SYSTEM_EVENT_MAX)%N ->
  entry_event_id (table_at table (event_id e)) = event_id e ->
  default_handler_stage table e =
  match event_handle (table_at table (event_id e)) with
  | Some fn =>
      modify (add_history (Enter_default fn e)) ;; call_event_handle fn e ;; ret tt
  | None => ret tt
  end.
Proof.
  intros L E. unfold default_handler_stage.
  rewrite E, N.eqb_refl.
  destruct (N.ltb_spec (event_id e) SYSTEM_EVENT_MAX); [reflexivity | lia].
Qed.

Lemma esp_system_event_debug_history (event : option system_event_t) (w : World) :
  history (snd (esp_system_event_debug event w)) = history w
  /\ g_event_handler_cb (snd (esp_system_event_debug event w)) = g_event_handler_cb w
  /\ g_event_ctx (snd (esp_system_event_debug event w)) = g_event_ctx w
  /\ env (snd (esp_system_event_debug event w)) = env w
  /\ g_event_handler (snd (esp_system_event_debug event w)) = g_event_handler w.
Proof.
  destruct event as [e|]; unfold esp_system_event_debug, bind; [|cbn; auto].
  destruct (existsb (N.eqb (event_id e)) debug_cases); cbn; auto.
Qed.

Lemma esp_wifi_post_event_to_user_history (e : system_event_t) (w : World)
    (cb : system_event_cb_t) :
  g_event_handler_cb w = Some cb ->
  history (snd (esp_wifi_post_event_to_user e w))
  = history w ++ [Call_user_cb cb (g_event_ctx w) e].
Proof.
  intro H. unfold esp_wifi_post_event_to_user, bind, gets.
  cbn [fst snd]. rewrite H. reflexivity.
Qed.

Lemma esp_wifi_post_event_to_user_queue (e : system_event_t) (w : World) :
  g_event_handler (snd (esp_wifi_post_event_to_user e w)) = g_event_handler w.
Proof.
  unfold esp_wifi_post_event_to_user, bind, gets. cbn [fst snd].
  destruct (g_event_handler_cb w); reflexivity.
Qed.


(** C4.  For a non-null event whose kind is not below the sentinel, or
    whose table entry stores another kind, the per-event handling prints
    the mismatch line in place of the default-handler stage and then
    posts the event to the user: no default handler is entered and the
    only call that leaves event.c is that of the registered callback,
    whose result is the result.  For a kind in range whose entry matches
    and holds no handler, the default stage does nothing at all and the
    event is posted to the user likewise. *)
Theorem invalid_kind_skips_default_stage (table : list system_event_handle_t)
    (e : system_event_t) (w : World) :
  (kind_invalid_or_mismatched table e ->
     esp_system_event_handler_on table (Some e) w
     = esp_wifi_post_event_to_user e
         (add_console (Print_mismatch_or_invalid_event (event_id e))
            (snd (esp_system_event_debug (Some e) w)))
     /\ forall cb, g_event_handler_cb w = Some cb ->
          history (snd (esp_system_event_handler_on table (Some e) w))
          = history w ++ [Call_user_cb cb (g_event_ctx w) e])
  /\
  ((event_id e < SYSTEM_EVENT_MAX)%N ->
   entry_event_id (table_at table (event_id e)) = event_id e ->
   event_handle (table_at table (event_id e)) = None ->
     esp_system_event_handler_on table (Some e) w
     = esp_wifi_post_event_to_user e (snd (esp_system_event_debug (Some e) w))
     /\ forall cb, g_event_handler_cb w = Some cb ->
          history (snd (esp_system_event_handler_on table (Some e) w))
          = history w ++ [Call_user_cb cb (g_event_ctx w) e]).
Proof.
  destruct (esp_system_event_debug_history (Some e) w) as (Hh & Hcb & Hctx & _ & _).
  split.
  - intro Hbad.
    assert (E : esp_system_event_handler_on table (Some e) w
                = esp_wifi_post_event_to_user e
                    (add_console (Print_mismatch_or_invalid_event (event_id e))
                       (snd (esp_system_event_debug (Some e) w)))).
    { rewrite esp_system_event_handler_on_stages.
      rewrite (default_handler_stage_invalid _ _ Hbad). reflexivity. }
    split; [exact E|].
    intros cb Hc. rewrite E.
    rewrite (esp_wifi_post_event_to_user_history _ _ cb).
    + cbn [add_console history g_event_ctx]. now rewrite Hh, Hctx.
    + cbn [add_console g_event_handler_cb]. now rewrite Hcb.
  - intros L M N.
    assert (E : esp_system_event_handler_on table (Some e) w
                = esp_wifi_post_event_to_user e (snd (esp_system_event_debug (Some e) w))).
    { rewrite esp_system_event_handler_on_stages.
      rewrite (default_handler_stage_valid _ _ L M), N. reflexivity. }
    split; [exact E|].
    intros cb Hc. rewrite E.
    rewrite (esp_wifi_post_event_to_user_history _ _ cb).
    + now rewrite Hh, Hctx.
    + now rewrite Hcb.
Qed.

(** ** A failing default handler *)

Lemma default_handler_stage_keeps_registration (table : list system_event_handle_t)
    (e : system_event_t) (w : World) :
  g_event_handler_cb (snd (default_handler_stage table e w)) = g_event_handler_cb w
  /\ g_event_ctx (snd (default_handler_stage table e w)) = g_event_ctx w
  /\ exists h, history (snd (default_handler_stage table e w)) = history w ++ h
               /\ delivered h = [].
Proof.
  destruct (default_handler_stage_step table e w) as [h [H _ U _ _ C X _ _]].
  repeat split; try assumption. exists h. auto.
Qed.

Lemma esp_system_event_task_delivers (n : nat) :
  forall (w : World) (cb : system_event_cb_t),
    g_event_handler_cb w = Some cb ->
    n <= length (pending w) ->
    exists h, history (snd (esp_system_event_task n w)) = history w ++ h
              /\ dequeued h = firstn n (pending w)
              /\ delivered h = firstn n (pending w).
Proof.
  induction n as [|n IH]; intros w cb Hcb Hn.
  - exists []. cbn. now rewrite app_nil_r.
  - cbn [esp_system_event_task]. unfold bind.
    destruct (esp_system_event_task_turn_step w) as (h1 & dq & S1 & E).
    set (w1 := snd (esp_system_event_task_turn w)) in *.
    destruct (pending w) as [|e rest] eqn:Hp; [simpl in Hn; lia|].
    simpl in E. subst dq.
    destruct S1 as [H1 D1 U1 _ Q1 C1 _ _ _].
    rewrite Hcb in U1. rewrite Hp in Q1.
    simpl in Q1. injection Q1 as Q1.
    destruct (IH w1 cb) as (h2 & H2 & D2 & U2).
    + now rewrite C1.
    + rewrite <- Q1, length_app. simpl in Hn. lia.
    + assert (F : firstn n (pending w1) = firstn n rest).
      { rewrite <- Q1, firstn_app.
        replace (n - length rest) with 0 by (simpl in Hn; lia).
        simpl. now rewrite app_nil_r. }
      exists (h1 ++ h2). repeat split.
      * rewrite H2, H1. now rewrite app_assoc.
      * rewrite dequeued_app, D1, D2, F. reflexivity.
      * rewrite delivered_app, U1, U2, F. reflexivity.
Qed.

(** C6.  For a non-null event the per-event handling is the post to the
    user, run in the world the default-handler stage leaves: the code the
    default handler returned is dropped and does not reach the post, and
    the stage leaves the registered callback and context as they were, so
    that the call of the registered callback for this event is the last
    item of the history and the stage itself delivered nothing.  The loop
    has no exit: after [n] turns on a queue of at least [n] waiting
    events, the first [n] of them were taken and handed to the callback,
    in order, whatever the handlers and the callback returned. *)
Theorem handler_failure_never_blocks_delivery :
  (forall (table : list system_event_handle_t) (e : system_event_t) (w : World),
     let w1 := snd (default_handler_stage table e
                      (snd (esp_system_event_debug (Some e) w))) in
     esp_system_event_handler_on table (Some e) w = esp_wifi_post_event_to_user e w1
     /\ forall cb, g_event_handler_cb w = Some cb ->
          exists h,
            history (snd (esp_system_event_handler_on table (Some e) w))
            = history w ++ h ++ [Call_user_cb cb (g_event_ctx w) e]
            /\ delivered h = [])
  /\
  (forall (n : nat) (w : World) (cb : system_event_cb_t),
     g_event_handler_cb w = Some cb ->
     n <= length (pending w) ->
     exists h, history (snd (esp_system_event_task n w)) = history w ++ h
               /\ dequeued h = firstn n (pending w)
               /\ delivered h = firstn n (pending w)).
Proof.
  split.
  - intros table e w w1.
    assert (E : esp_system_event_handler_on table (Some e) w
                = esp_wifi_post_event_to_user e w1) by reflexivity.
    split; [exact E|].
    intros cb Hcb.
    destruct (esp_system_event_debug_history (Some e) w) as (Hh & Hc & Hx & _ & _).
    destruct (default_handler_stage_keeps_registration table e
                (snd (esp_system_event_debug (Some e) w)))
      as (C & X & h & H & U).
    fold w1 in C, X, H.
    exists h. split; [|exact U].
    rewrite E, (esp_wifi_post_event_to_user_history _ _ cb).
    + rewrite H, X, Hh, Hx. now rewrite app_assoc.
    + now rewrite C, Hc.
  - intros n w cb. apply esp_system_event_task_delivers.
Qed.

(** ** Replacing the callback *)

(** C7, as the code has it.  esp_event_set_cb installs the new callback
    and the new context and leaves the rest of the world alone; what it
    returns is the callback registered before the call, and only that:
    the context registered before is overwritten and not returned. *)
Theorem esp_event_set_cb_returns_previous_callback (cb : option system_event_cb_t)
    (ctx : ctx_t) (w : World) :
  fst (esp_event_set_cb cb ctx w) = g_event_handler_cb w
  /\ snd (esp_event_set_cb cb ctx w) = set_g_event_ctx ctx (set_g_event_handler_cb cb w)
  /\ g_event_handler_cb (snd (esp_event_set_cb cb ctx w)) = cb
  /\ g_event_ctx (snd (esp_event_set_cb cb ctx w)) = ctx.
Proof. repeat split. Qed.

(** ** Adapter start *)

(** C8, as the code has it.  The access-point start handler registers
    the inbound-packet routine of the access point; if the driver accepts,
    it fetches the link address; if the driver delivers it, it reads the
    cached address configuration and starts the adapter with both.  The
    station start handler fetches the link address and, if the driver
    delivers it, reads the cached configuration and starts the adapter
    with both; it makes no other call, and registers no inbound-packet
    routine. *)
Theorem adapter_start_calls (event : system_event_t) (w : World) :
  (let reg := esp_wifi_reg_rxcb WIFI_IF_AP (Some tcpip_adapter_ap_input) (env w) in
   let mac := esp_wifi_get_mac WIFI_IF_AP (snd reg) in
   let info := tcpip_adapter_get_ip_info TCPIP_ADAPTER_IF_AP (snd mac) in
   history (snd (system_event_ap_start_handle_default event w))
   = history w
     ++ Call_esp_wifi_reg_rxcb WIFI_IF_AP (Some tcpip_adapter_ap_input)
        :: (if Z.eqb ESP_OK (fst reg)
            then Call_esp_wifi_get_mac WIFI_IF_AP
                 :: (if Z.eqb ESP_OK (fst (fst mac))
                     then [ Call_tcpip_adapter_get_ip_info TCPIP_ADAPTER_IF_AP;
                            Call_tcpip_adapter_start TCPIP_ADAPTER_IF_AP
                              (snd (fst mac)) (snd (fst info)) ]
                     else [])
            else []))
  /\
  (let mac := esp_wifi_get_mac WIFI_IF_STA (env w) in
   let info := tcpip_adapter_get_ip_info TCPIP_ADAPTER_IF_STA (snd mac) in
   history (snd (system_event_sta_start_handle_default event w))
   = history w
     ++ Call_esp_wifi_get_mac WIFI_IF_STA
        :: (if Z.eqb ESP_OK (fst (fst mac))
            then [ Call_tcpip_adapter_get_ip_info TCPIP_ADAPTER_IF_STA;
                   Call_tcpip_adapter_start TCPIP_ADAPTER_IF_STA
                     (snd (fst mac)) (snd (fst info)) ]
            else [])).
Proof.
  split.
  - cbv zeta.
    unfold system_event_ap_start_handle_default, WIFI_API_CALL_CHECK, bind,
      call_esp_wifi_reg_rxcb, call_esp_wifi_get_mac, call_tcpip_adapter_get_ip_info,
      call_tcpip_adapter_start, extern, ret.
    cbn [fst snd env set_env add_history history].
    destruct (Z.eqb ESP_OK (fst (esp_wifi_reg_rxcb _ _ (env w)))); cbn [negb]; [|reflexivity].
    cbn [fst snd env set_env add_history history].
    destruct (Z.eqb ESP_OK (fst (fst (esp_wifi_get_mac _ _)))); cbn [negb].
    + cbn [fst snd env set_env add_history history]. rewrite <- !app_assoc. reflexivity.
    + cbn [fst snd env set_env add_history history]. rewrite <- !app_assoc. reflexivity.
  - cbv zeta.
    unfold system_event_sta_start_handle_default, WIFI_API_CALL_CHECK, bind,
      call_esp_wifi_get_mac, call_tcpip_adapter_get_ip_info,
      call_tcpip_adapter_start, extern, ret.
    cbn [fst snd env set_env add_history history].
    destruct (Z.eqb ESP_OK (fst (fst (esp_wifi_get_mac _ _)))); cbn [negb].
    + cbn [fst snd env set_env add_history history]. rewrite <- !app_assoc. reflexivity.
    + reflexivity.
Qed.

(** ** The dispatch table *)



End Proofs.

(** * The statements at concrete inputs *)

(** An end-to-end scenario of the spec: the callback sees adapter-start,
    then station-associated, then the synthesized address-acquired event
    with the static configuration. *)
Example scenario_static_ip_delivers_three :
  delivered (history (snd (@run (SimPlatform 32) scenario_static_ip
                             (sim_world 32 (sim_env sim_static_ip)))))
  = [ ev SYSTEM_EVENT_STA_START; ev SYSTEM_EVENT_STA_CONNECTED;
      got_ip_event sim_static_ip ].
Proof. reflexivity. Qed.

(** The other end-to-end scenario of the spec: with capacity 1 a second
    send without a turn in between is refused, and the first event is
    delivered unchanged once the broker takes its turn. *)
Example scenario_capacity_one :
  let w0 := sim_world 1 (sim_env sim_static_ip) in
  let r1 := @esp_event_send (SimPlatform 1) (Some (ev SYSTEM_EVENT_STA_START)) w0 in
  let r2 := @esp_event_send (SimPlatform 1) (Some (ev SYSTEM_EVENT_STA_STOP)) (snd r1) in
  let w3 := snd (@esp_system_event_task_turn (SimPlatform 1) (snd r2)) in
  fst r1 = ESP_OK /\ fst r2 = ESP_FAIL
  /\ delivered (history w3) = [ev SYSTEM_EVENT_STA_START]
  /\ pending w3 = [].
Proof. cbv zeta. repeat split. Qed.

(** C2 at a station with the static configuration 192.0.2.5 /
    255.255.255.0 / 192.0.2.1 and room in the queue, at the same station
    with a full queue, and at a station without gateway. *)
Lemma sta_connected_static_ip_witness :
  (let w := sim_world 32 (sim_env sim_static_ip) in
   let w' := snd (@system_event_sta_connected_handle_default (SimPlatform 32)
                    (ev SYSTEM_EVENT_STA_CONNECTED) w) in
   g_event_handler w = Some (xQueueCreate 32)
   /\ g_event_handler w'
      = Some {| uxLength := 32;
                items := [ {| event_id := 7%N;
                              event_info :=
                                info_got_ip {| ip := 3221225989%N;
                                               netmask := 4294967040%N;
                                               gw := 3221225985%N |} |} ] |})
  /\
  (let w' := snd (@system_event_sta_connected_handle_default (SimPlatform 1)
                    (ev SYSTEM_EVENT_STA_CONNECTED) sim_world_full) in
   g_event_handler w' = g_event_handler sim_world_full
   /\ console w' = [Print_send_failed (Some 7%N)])
  /\
  (let w := sim_world 32 (sim_env sim_static_ip_no_gw) in
   let w' := snd (@system_event_sta_connected_handle_default (SimPlatform 32)
                    (ev SYSTEM_EVENT_STA_CONNECTED) w) in
   history w' = history w ++ sta_connected_calls
   /\ g_event_handler w' = Some (xQueueCreate 32)).
Proof.
  assert (Hnz : ip sim_static_ip <> 0%N /\ netmask sim_static_ip <> 0%N
                /\ gw sim_static_ip <> 0%N) by (repeat split; discriminate).
  split; [|split]; cbv zeta.
  - destruct (@sta_connected_static_ip (SimPlatform 32) (ev SYSTEM_EVENT_STA_CONNECTED)
                (sim_world 32 (sim_env sim_static_ip)) (xQueueCreate 32)
                eq_refl eq_refl eq_refl) as [Hvalid _].
    destruct (Hvalid Hnz) as (_ & _ & Hroom & _).
    assert (L : length (items (xQueueCreate 32)) < uxLength (xQueueCreate 32))
      by (simpl; lia).
    destruct (Hroom L) as (_ & Hq & _).
    split; [reflexivity | exact Hq].
  - destruct (@sta_connected_static_ip (SimPlatform 1) (ev SYSTEM_EVENT_STA_CONNECTED)
                sim_world_full {| uxLength := 1; items := [ev SYSTEM_EVENT_STA_START] |}
                eq_refl eq_refl eq_refl) as [Hvalid _].
    destruct (Hvalid Hnz) as (_ & _ & _ & Hfull).
    assert (L : 1 <= length [ev SYSTEM_EVENT_STA_START]) by (simpl; lia).
    destruct (Hfull L) as (_ & Hq & Hc).
    split; [exact Hq | exact Hc].
  - destruct (@sta_connected_static_ip (SimPlatform 32) (ev SYSTEM_EVENT_STA_CONNECTED)
                (sim_world 32 (sim_env sim_static_ip_no_gw)) (xQueueCreate 32)
                eq_refl eq_refl eq_refl) as [_ Hzero].
    destruct (Hzero (or_intror (or_intror eq_refl))) as (_ & _ & Hh & Hq & _).
    split; assumption.
Defined.

(** C4 at a kind past the sentinel, at a kind whose entry stores another
    kind, and at a kind without handler. *)
Lemma invalid_kind_skips_default_stage_witness :
  (let w := sim_world 32 (sim_env sim_static_ip) in
   kind_invalid_or_mismatched g_system_event_handle_table (ev 99%N)
   /\ history (snd (@esp_system_event_handler (SimPlatform 32) (Some (ev 99%N)) w))
      = [Call_user_cb 1000%N 77%N (ev 99%N)])
  /\
  (let w := sim_world 32 (sim_env sim_static_ip) in
   kind_invalid_or_mismatched sim_mismatched_table (ev SYSTEM_EVENT_STA_START)
   /\ history (snd (@esp_system_event_handler_on (SimPlatform 32) sim_mismatched_table
                      (Some (ev SYSTEM_EVENT_STA_START)) w))
      = [Call_user_cb 1000%N 77%N (ev SYSTEM_EVENT_STA_START)])
  /\
  (let w := sim_world 32 (sim_env sim_static_ip) in
   history (snd (@esp_system_event_handler (SimPlatform 32)
                   (Some (ev SYSTEM_EVENT_WIFI_READY)) w))
   = [Call_user_cb 1000%N 77%N (ev SYSTEM_EVENT_WIFI_READY)]).
Proof.
  assert (H1 : kind_invalid_or_mismatched g_system_event_handle_table (ev 99%N)).
  { left. simpl. unfold SYSTEM_EVENT_MAX. lia. }
  assert (H2 : kind_invalid_or_mismatched sim_mismatched_table (ev SYSTEM_EVENT_STA_START)).
  { right. simpl. discriminate. }
  split; [|split]; cbv zeta.
  - split; [exact H1|].
    destruct (@invalid_kind_skips_default_stage (SimPlatform 32)
                g_system_event_handle_table (ev 99%N)
                (sim_world 32 (sim_env sim_static_ip))) as [Hbad _].
    destruct (Hbad H1) as [_ Hh]. exact (Hh 1000%N eq_refl).
  - split; [exact H2|].
    destruct (@invalid_kind_skips_default_stage (SimPlatform 32)
                sim_mismatched_table (ev SYSTEM_EVENT_STA_START)
                (sim_world 32 (sim_env sim_static_ip))) as [Hbad _].
    destruct (Hbad H2) as [_ Hh]. exact (Hh 1000%N eq_refl).
  - destruct (@invalid_kind_skips_default_stage (SimPlatform 32)
                g_system_event_handle_table (ev SYSTEM_EVENT_WIFI_READY)
                (sim_world 32 (sim_env sim_static_ip))) as [_ Hnone].
    destruct (Hnone eq_refl eq_refl eq_refl) as [_ Hh]. exact (Hh 1000%N eq_refl).
Defined.

(** C5 at an empty queue of capacity 32 and at a full queue of
    capacity 1. *)
Lemma esp_event_send_bounded_witness :
  (let w := sim_world 32 (sim_env sim_static_ip) in
   g_event_handler w = Some (xQueueCreate 32)
   /\ fst (@esp_event_send (SimPlatform 32) (Some (ev SYSTEM_EVENT_SCAN_DONE)) w) = ESP_OK
   /\ pending (snd (@esp_event_send (SimPlatform 32) (Some (ev SYSTEM_EVENT_SCAN_DONE)) w))
      = [ev SYSTEM_EVENT_SCAN_DONE]
   /\ suspensions
        (history (snd (@esp_event_send (SimPlatform 32) (Some (ev SYSTEM_EVENT_SCAN_DONE)) w)))
      = [0%N])
  /\
  (g_event_handler sim_world_full
   = Some {| uxLength := 1; items := [ev SYSTEM_EVENT_STA_START] |}
   /\ fst (@esp_event_send (SimPlatform 1) (Some (ev SYSTEM_EVENT_SCAN_DONE)) sim_world_full)
      = ESP_FAIL
   /\ pending (snd (@esp_event_send (SimPlatform 1) (Some (ev SYSTEM_EVENT_SCAN_DONE))
                      sim_world_full))
      = [ev SYSTEM_EVENT_STA_START]
   /\ suspensions
        (history (snd (@esp_event_send (SimPlatform 1) (Some (ev SYSTEM_EVENT_SCAN_DONE))
                         sim_world_full)))
      = [0%N; 0%N]).
Proof.
  split.
  - destruct (@esp_event_send_bounded (SimPlatform 32) (ev SYSTEM_EVENT_SCAN_DONE)
                (sim_world 32 (sim_env sim_static_ip)) (xQueueCreate 32) eq_refl)
      as [Hroom _].
    assert (L : length (items (xQueueCreate 32)) < uxLength (xQueueCreate 32))
      by (simpl; lia).
    destruct (Hroom L) as (Hr & _ & Hp & _ & Hs).
    cbv zeta. split; [reflexivity|]. split; [exact Hr|]. split; [exact Hp | exact Hs].
  - destruct (@esp_event_send_bounded (SimPlatform 1) (ev SYSTEM_EVENT_SCAN_DONE)
                sim_world_full {| uxLength := 1; items := [ev SYSTEM_EVENT_STA_START] |}
                eq_refl)
      as [_ Hfull].
    assert (L : 1 <= length [ev SYSTEM_EVENT_STA_START]) by (simpl; lia).
    destruct (Hfull L) as (Hr & _ & Hp & _ & _ & _ & Hs).
    split; [reflexivity|]. split; [exact Hr|]. split; [exact Hp | exact Hs].
Defined.

(** C6 where the driver refuses every call and the callback itself
    reports a failure: both waiting events reach the callback. *)
Lemma handler_failure_never_blocks_delivery_witness :
  fst (@call_event_handle (SimPlatform 32) fn_system_event_sta_connected_handle_default
         (ev SYSTEM_EVENT_STA_CONNECTED) sim_world_failing) = ESP_FAIL
  /\ g_event_handler_cb sim_world_failing = Some 1000%N
  /\ 2 <= length (pending sim_world_failing)
  /\ exists h,
       history (snd (@esp_system_event_task (SimPlatform 32) 2 sim_world_failing))
       = history sim_world_failing ++ h
       /\ delivered h = [ev SYSTEM_EVENT_STA_CONNECTED; ev SYSTEM_EVENT_AP_START].
Proof.
  split; [reflexivity|]. split; [reflexivity|]. split; [simpl; lia|].
  destruct (@handler_failure_never_blocks_delivery (SimPlatform 32)) as [_ Hloop].
  assert (L : 2 <= length (pending sim_world_failing)) by (simpl; lia).
  destruct (Hloop 2 sim_world_failing 1000%N eq_refl L) as (h & Hh & _ & Hd).
  exists h. split; assumption.
Defined.


(** ** Where the specification and the code part *)

(** C3 at a concrete input: after a first esp_event_init and one event
    enqueued, a second esp_event_init with another callback returns
    ESP_OK, installs that callback and its context, starts a second task
    and leaves an empty queue, the waiting event lost. *)
Example esp_event_init_second_call :
  let w1 := snd (@esp_event_send (SimPlatform 32) (Some (ev SYSTEM_EVENT_STA_START))
                   (sim_world 32 (sim_env sim_static_ip))) in
  let r := @esp_event_init (SimPlatform 32) (Some 2000%N) 88%N w1 in
  pending w1 = [ev SYSTEM_EVENT_STA_START]
  /\ g_event_handler_cb w1 = Some 1000%N /\ g_event_ctx w1 = 77%N
  /\ fst r = ESP_OK
  /\ g_event_handler_cb (snd r) = Some 2000%N /\ g_event_ctx (snd r) = 88%N
  /\ pending (snd r) = []
  /\ tasks (snd r) = [eventTask; eventTask].
Proof. cbv zeta. repeat split. Qed.

(** C2 as stated fails on a full queue: the handler finds the status
    stopped and a configuration with no zero field, and the
    address-acquired event it offers is refused; the queue holds after
    the handler what it held before, and the event is not in it. *)
Lemma sta_connected_static_ip_lost_on_full_queue :
  let w := sim_world_full in
  let r := @system_event_sta_connected_handle_default (SimPlatform 1)
             (ev SYSTEM_EVENT_STA_CONNECTED) w in
  let evt := {| event_id := SYSTEM_EVENT_STA_GOT_IP;
                event_info := info_got_ip sim_static_ip |} in
  fst (@esp_wifi_reg_rxcb (SimPlatform 1) WIFI_IF_STA (Some tcpip_adapter_sta_input)
         (env w)) = ESP_OK
  /\ sta_dhcp_status_found (env w) = TCPIP_ADAPTER_DHCP_STOPPED
  /\ sta_ip_found (env w) = sim_static_ip
  /\ ip sim_static_ip <> 0%N /\ netmask sim_static_ip <> 0%N /\ gw sim_static_ip <> 0%N
  /\ send_attempts (history (snd r)) = send_attempts (history w) ++ [evt]
  /\ pending (snd r) = pending w
  /\ pending (snd r) <> pending w ++ [evt]
  /\ ~ In evt (pending (snd r)).
Proof.
  cbv zeta.
  split; [reflexivity|]. split; [reflexivity|]. split; [reflexivity|].
  split; [discriminate|]. split; [discriminate|]. split; [discriminate|].
  split; [reflexivity|]. split; [reflexivity|]. split; [discriminate|].
  cbn. intros [H|H]; [discriminate | exact H].
Qed.

(** C7 as stated fails: two worlds that differ in the registered context
    only make esp_event_set_cb return the same value, so that no reading
    of the returned value gives the pair registered before the call. *)
Lemma esp_event_set_cb_loses_previous_context :
  let w1 := sim_world 32 (sim_env sim_static_ip) in
  let w2 := @set_g_event_ctx (SimPlatform 32) 78%N w1 in
  (g_event_handler_cb w1, g_event_ctx w1) <> (g_event_handler_cb w2, g_event_ctx w2)
  /\ fst (@esp_event_set_cb (SimPlatform 32) (Some 2000%N) 88%N w1)
     = fst (@esp_event_set_cb (SimPlatform 32) (Some 2000%N) 88%N w2)
  /\ ~ (exists previous_pair : option system_event_cb_t -> option system_event_cb_t * ctx_t,
          forall (w : @World (SimPlatform 32)) (cb : option system_event_cb_t) (ctx : ctx_t),
            previous_pair (fst (esp_event_set_cb cb ctx w))
            = (g_event_handler_cb w, g_event_ctx w)).
Proof.
  cbv zeta. split; [|split].
  - discriminate.
  - reflexivity.
  - intros [f Hf].
    pose proof (Hf (sim_world 32 (sim_env sim_static_ip)) (Some 2000%N) 88%N) as H1.
    pose proof (Hf (@set_g_event_ctx (SimPlatform 32) 78%N
                      (sim_world 32 (sim_env sim_static_ip))) (Some 2000%N) 88%N) as H2.
    cbn in H1, H2. rewrite H1 in H2. discriminate.
Qed.

(** C8 as stated fails twice.  On a healthy platform the station start
    handler fetches the link address, reads the cached configuration and
    starts the adapter, and registers no inbound-packet routine with the
    driver.  On a platform whose driver refuses the registration the
    access-point start handler stops there: no address is fetched and the
    adapter is not started. *)
Lemma adapter_start_misses_steps :
  (let w := sim_world 32 (sim_env sim_static_ip) in
   let w' := snd (@system_event_sta_start_handle_default (SimPlatform 32)
                    (ev SYSTEM_EVENT_STA_START) w) in
   history w' = [ Call_esp_wifi_get_mac WIFI_IF_STA;
                  Call_tcpip_adapter_get_ip_info TCPIP_ADAPTER_IF_STA;
                  Call_tcpip_adapter_start TCPIP_ADAPTER_IF_STA
                    [36; 10; 196; 0; 0; 1]%N sim_static_ip ]
   /\ ~ (exists ifx fn, In (Call_esp_wifi_reg_rxcb ifx fn) (history w')))
  /\
  (let w := sim_world 32 sim_env_failing in
   let r := @system_event_ap_start_handle_default (SimPlatform 32)
              (ev SYSTEM_EVENT_AP_START) w in
   fst r = ESP_FAIL
   /\ history (snd r) = [ Call_esp_wifi_reg_rxcb WIFI_IF_AP (Some tcpip_adapter_ap_input) ]).
Proof.
  cbv zeta. split; split; try reflexivity.
  intros (ifx & fn & H). cbn in H.
  repeat (destruct H as [H|H]; [discriminate|]). exact H.
Qed.

(** * Further properties of event.c *)

Section Further.

Context {P : Platform}.

(** ** Relations every step of a computation respects *)

Section RespectsRules.

Variable R : World -> World -> Prop.
Hypothesis R_refl : forall w, R w w.
Hypothesis R_trans : forall w1 w2 w3, R w1 w2 -> R w2 w3 -> R w1 w3.

Lemma Respects_ret {A : Type} (a : A) : Respects R (ret a).
Proof. intro w. apply R_refl. Qed.

Lemma Respects_gets {A : Type} (f : World -> A) : Respects R (gets f).
Proof. intro w. apply R_refl. Qed.

Lemma Respects_bind {A B : Type} (m : M World A) (k : A -> M World B) :
  Respects R m -> (forall a, Respects R (k a)) -> Respects R (bind m k).
Proof.
  intros Hm Hk w. unfold bind.
  eapply R_trans; [apply Hm | apply Hk].
Qed.

Lemma Respects_if {A : Type} (b : bool) (m1 m2 : M World A) :
  Respects R m1 -> Respects R m2 -> Respects R (if b then m1 else m2).
Proof. destruct b; auto. Qed.

Lemma Respects_WIFI_API_CALL_CHECK (api_call : M World esp_err_t) (expected : esp_err_t)
    (k : M World esp_err_t) :
  Respects R api_call -> Respects R k -> Respects R (WIFI_API_CALL_CHECK api_call expected k).
Proof.
  intros Ha Hk. unfold WIFI_API_CALL_CHECK.
  apply Respects_bind; [assumption|]. intro a.
  apply Respects_if; [apply Respects_ret | assumption].
Qed.

End RespectsRules.

(** The rules, down to the leaves [leaf] is to settle. *)
Ltac respects Rr Rt leaf :=
  repeat match goal with
         | |- Respects _ (ret _) => apply (Respects_ret _ Rr)
         | |- Respects _ (gets _) => apply (Respects_gets _ Rr)
         | |- Respects _ (WIFI_API_CALL_CHECK _ _ _) =>
             apply (Respects_WIFI_API_CALL_CHECK _ Rr Rt)
         | |- Respects _ (bind _ _) => apply (Respects_bind _ Rt); [| intro]
         | |- Respects _ (if _ then _ else _) => apply Respects_if
         | |- Respects _ (extern _ _) => leaf
         | |- Respects _ (printf _) => leaf
         | |- Respects _ (esp_event_send _) => leaf
         end.

Ltac unfold_handlers :=
  unfold system_event_ap_start_handle_default, system_event_ap_stop_handle_default,
    system_event_sta_start_handle_default, system_event_sta_stop_handle_default,
    system_event_sta_connected_handle_default,
    system_event_sta_disconnected_handle_default, system_event_sta_got_ip_default,
    call_esp_wifi_reg_rxcb, call_esp_wifi_get_mac, call_esp_wifi_set_sta_ip,
    call_tcpip_adapter_get_ip_info, call_tcpip_adapter_start, call_tcpip_adapter_stop,
    call_tcpip_adapter_up, call_tcpip_adapter_down,
    call_tcpip_adapter_dhcpc_get_status, call_tcpip_adapter_dhcpc_start.

(** ** The queue stays within its capacity *)

Lemma keeps_capacity_refl (w : World) : keeps_capacity w w.
Proof. intro H; exact H. Qed.

Lemma keeps_capacity_trans (w1 w2 w3 : World) :
  keeps_capacity w1 w2 -> keeps_capacity w2 w3 -> keeps_capacity w1 w3.
Proof. unfold keeps_capacity. auto. Qed.

Lemma keeps_capacity_same_queue (w w' : World) :
  g_event_handler w' = g_event_handler w -> keeps_capacity w w'.
Proof. intros E H. unfold queue_within_capacity in *. now rewrite E. Qed.

Lemma keeps_capacity_extern {A : Type} (i : history_item) (f : Env -> A * Env) :
  Respects keeps_capacity (extern i f).
Proof. intro w. apply keeps_capacity_same_queue. reflexivity. Qed.

Lemma keeps_capacity_printf (l : console_line) : Respects keeps_capacity (printf l).
Proof. intro w. apply keeps_capacity_same_queue. reflexivity. Qed.

Lemma esp_event_send_queue (e : system_event_t) (w : World) (q : xQueue) :
  g_event_handler w = Some q ->
  g_event_handler (snd (esp_event_send (Some e) w))
  = Some (snd (fst (xQueueSendToBack q e 0%N))).
Proof.
  intro Hq. unfold esp_event_send, bind, call_xQueueSendToBack. rewrite Hq.
  cbn [fst snd]. destruct (negb _); reflexivity.
Qed.

Lemma esp_event_send_no_queue (event : option system_event_t) (w : World) :
  g_event_handler w = None ->
  g_event_handler (snd (esp_event_send event w)) = None.
Proof.
  intro Hq. unfold esp_event_send, bind, call_xQueueSendToBack. rewrite Hq.
  destruct event; cbn; exact Hq.
Qed.

Lemma keeps_capacity_esp_event_send (event : option system_event_t) :
  Respects keeps_capacity (esp_event_send event).
Proof.
  intros w H. unfold queue_within_capacity in *.
  destruct (g_event_handler w) as [q|] eqn:Hq.
  - destruct event as [e|].
    + rewrite (esp_event_send_queue e w q Hq). unfold xQueueSendToBack.
      destruct (Nat.ltb_spec (length (items q)) (uxLength q)); cbn [fst snd uxLength items].
      * rewrite length_app. simpl. lia.
      * exact H.
    + unfold esp_event_send, bind, call_xQueueSendToBack. rewrite Hq.
      cbn. rewrite Hq. exact H.
  - now rewrite esp_event_send_no_queue.
Qed.

Lemma keeps_capacity_call_event_handle (fn : system_event_handle_fn_t) (e : system_event_t) :
  Respects keeps_capacity (call_event_handle fn e).
Proof.
  destruct fn; simpl; unfold_handlers;
    respects keeps_capacity_refl keeps_capacity_trans
      ltac:(first [ apply keeps_capacity_extern | apply keeps_capacity_printf
                  | apply keeps_capacity_esp_event_send ]).
Qed.

Lemma keeps_capacity_modify_history (i : history_item) :
  Respects keeps_capacity (modify (add_history i)).
Proof. intro w. apply keeps_capacity_same_queue. reflexivity. Qed.

Lemma keeps_capacity_esp_wifi_post_event_to_user (e : system_event_t) :
  Respects keeps_capacity (esp_wifi_post_event_to_user e).
Proof.
  intro w. apply keeps_capacity_same_queue. apply esp_wifi_post_event_to_user_queue.
Qed.

Lemma keeps_capacity_esp_system_event_handler_on (table : list system_event_handle_t)
    (event : option system_event_t) :
  Respects keeps_capacity (esp_system_event_handler_on table event).
Proof.
  destruct event as [e|].
  - rewrite esp_system_event_handler_on_stages.
    apply (Respects_bind _ keeps_capacity_trans).
    + intro w. apply keeps_capacity_same_queue.
      apply (esp_system_event_debug_history (Some e) w).
    + intros _. apply (Respects_bind _ keeps_capacity_trans).
      * unfold default_handler_stage.
        apply Respects_if; [|apply keeps_capacity_printf].
        destruct (event_handle (table_at table (event_id e))) as [fn|].
        -- apply (Respects_bind _ keeps_capacity_trans);
             [apply keeps_capacity_modify_history|].
           intros _. apply (Respects_bind _ keeps_capacity_trans);
             [apply keeps_capacity_call_event_handle|].
           intros _. apply (Respects_ret _ keeps_capacity_refl).
        -- apply (Respects_ret _ keeps_capacity_refl).
      * intros _. apply keeps_capacity_esp_wifi_post_event_to_user.
  - simpl. apply (Respects_bind _ keeps_capacity_trans);
      [apply keeps_capacity_printf|].
    intros _. apply (Respects_ret _ keeps_capacity_refl).
Qed.

Lemma keeps_capacity_esp_system_event_task_turn :
  Respects keeps_capacity esp_system_event_task_turn.
Proof.
  intro w. unfold esp_system_event_task_turn.
  destruct (g_event_handler w) as [q|] eqn:Hq; [|apply keeps_capacity_refl].
  unfold xQueueReceive. destruct (items q) as [|e rest] eqn:Hi;
    [apply keeps_capacity_refl|].
  eapply keeps_capacity_trans.
  - instantiate (1 := add_history (Queue_receive e)
                        (set_g_event_handler
                           (Some {| uxLength := uxLength q; items := rest |}) w)).
    intro H. unfold queue_within_capacity in *. rewrite Hq in H.
    cbn. rewrite Hi in H. simpl in H. split; [tauto | lia].
  - apply (Respects_bind _ keeps_capacity_trans).
    + apply keeps_capacity_esp_system_event_handler_on.
    + intro r. apply Respects_if;
        [apply keeps_capacity_printf | apply (Respects_ret _ keeps_capacity_refl)].
Qed.

Lemma keeps_capacity_perform_api (c : api_call) : Respects keeps_capacity (perform_api c).
Proof.
  destruct c as [cb ctx|cb ctx|e|]; simpl.
  - intros w H. unfold esp_event_init, bind, gets. cbn [fst snd].
    destruct (event_init_flag w) eqn:F; cbn.
    + exact H.
    + unfold queue_within_capacity. cbn. split; [reflexivity | lia].
  - intro w. apply keeps_capacity_same_queue. reflexivity.
  - apply (Respects_bind _ keeps_capacity_trans);
      [apply keeps_capacity_esp_event_send|].
    intros _. apply (Respects_ret _ keeps_capacity_refl).
  - apply keeps_capacity_esp_system_event_task_turn.
Qed.

Lemma keeps_capacity_run_api (calls : list api_call) :
  Respects keeps_capacity (run_api calls).
Proof.
  induction calls as [|c rest IH]; simpl.
  - apply (Respects_ret _ keeps_capacity_refl).
  - apply (Respects_bind _ keeps_capacity_trans);
      [apply keeps_capacity_perform_api | intros _; exact IH].
Qed.

(** X1.  Whatever calls of esp_event_init, esp_event_set_cb and
    esp_event_send and whatever turns of the broker follow the boot, in
    any order: the queue, once it exists, has the capacity of the
    configuration and never holds more events than that. *)
Theorem queue_capacity_invariant (calls : list api_call) (e : Env) :
  queue_within_capacity (snd (run_api calls (boot e))).
Proof.
  apply keeps_capacity_run_api. exact I.
Qed.

(** ** What the default handlers offer to the queue *)

(** Unfold a handler and go through every outcome of the calls it makes. *)
Ltac run_handler :=
  unfold_handlers;
  unfold WIFI_API_CALL_CHECK, esp_event_send, call_xQueueSendToBack, bind, extern, ret,
    printf, modify;
  cbn [fst snd negb env set_env add_history add_console set_g_event_handler history
       console g_event_handler g_event_handler_cb g_event_ctx event_init_flag tasks];
  repeat (match goal with
          | |- context [Z.eqb ?a ?b] => destruct (Z.eqb a b) eqn:?
          | |- context [if ?b then _ else _] => destruct b eqn:?
          | |- context [match g_event_handler ?w with _ => _ end] =>
              destruct (g_event_handler w) eqn:?
          end;
          cbn [fst snd negb env set_env add_history add_console set_g_event_handler
               history console g_event_handler g_event_handler_cb g_event_ctx
               event_init_flag tasks]).

Lemma default_handler_sends (fn : system_event_handle_fn_t) (e : system_event_t)
    (w : World) :
  exists h,
    history (snd (call_event_handle fn e w)) = history w ++ h
    /\ (send_attempts h = []
        \/ (fn = fn_system_event_sta_connected_handle_default
            /\ exists sta_ip, static_ip_is_valid sta_ip = true
                              /\ send_attempts h = [got_ip_event sta_ip])).
Proof.
  destruct fn; cbn [call_event_handle]; run_handler;
    (eexists; split; [rewrite <- ?app_assoc; reflexivity|]);
    first [ left; reflexivity
          | right; split; [reflexivity|];
            eexists; split; [eassumption | reflexivity] ].
Qed.

Lemma enqueued_of_no_attempt (h : list history_item) :
  send_attempts h = [] -> enqueued h = [].
Proof.
  induction h as [|i h IH]; [reflexivity|].
  destruct i; simpl; try exact IH. discriminate.
Qed.

Lemma enqueued_of_one_attempt (h : list history_item) (x : system_event_t) :
  send_attempts h = [x] -> enqueued h = [] \/ enqueued h = [x].
Proof.
  induction h as [|i h IH]; [discriminate|].
  destruct i as [| | | | | | | | | |e0 r t| | |]; simpl; try exact IH.
  intro H. injection H as -> Hh.
  rewrite (enqueued_of_no_attempt _ Hh).
  destruct (Z.eqb r pdPASS); auto.
Qed.

(** X2.  A default handler offers at most one event to the queue, and
    only the station-associated handler offers any; what it offers is an
    address-acquired event whose address, mask and gateway are all
    non-zero. *)
Theorem default_handlers_send_only_valid_got_ip (fn : system_event_handle_fn_t)
    (e : system_event_t) (w : World) :
  exists h,
    history (snd (call_event_handle fn e w)) = history w ++ h
    /\ length (send_attempts h) <= 1
    /\ Forall is_valid_got_ip (send_attempts h)
    /\ (send_attempts h = [] \/ fn = fn_system_event_sta_connected_handle_default).
Proof.
  destruct (default_handler_sends fn e w) as (h & Hh & [Hs | (Hfn & sta_ip & Hv & Hs)]);
    exists h; rewrite Hs; repeat split; auto; simpl; try lia.
  constructor; [|constructor].
  split; [reflexivity|].
  exists sta_ip. split; [reflexivity|]. now apply static_ip_is_valid_true.
Qed.

(** ** The broker empties the queue *)

Lemma handler_pending_growth (fn : system_event_handle_fn_t) (e : system_event_t)
    (w : World) :
  pending (snd (call_event_handle fn e w)) = pending w
  \/ (fn = fn_system_event_sta_connected_handle_default
      /\ exists sta_ip,
           pending (snd (call_event_handle fn e w)) = pending w ++ [got_ip_event sta_ip]).
Proof.
  destruct (Quiet_call_event_handle fn e w) as [h [Hh _ _ _ Hp _ _ _ _]].
  destruct (default_handler_sends fn e w) as (h' & Hh' & Hs).
  rewrite Hh in Hh'. apply app_inv_head in Hh'. subst h'.
  simpl in Hp. rewrite <- Hp.
  destruct Hs as [Hs | (Hfn & sta_ip & _ & Hs)].
  - left. rewrite (enqueued_of_no_attempt _ Hs). now rewrite app_nil_r.
  - destruct (enqueued_of_one_attempt _ _ Hs) as [E|E]; rewrite E.
    + left. now rewrite app_nil_r.
    + right. split; [exact Hfn|]. exists sta_ip. reflexivity.
Qed.

Lemma sta_connected_kind (e : system_event_t) :
  default_handler_of g_system_event_handle_table e
  = Some fn_system_event_sta_connected_handle_default ->
  event_id e = SYSTEM_EVENT_STA_CONNECTED.
Proof.
  unfold default_handler_of.
  destruct (N.ltb_spec (event_id e) SYSTEM_EVENT_MAX) as [L|L]; [|discriminate].
  unfold SYSTEM_EVENT_MAX in L.
  assert (C : (event_id e = 0 \/ event_id e = 1 \/ event_id e = 2 \/ event_id e = 3
               \/ event_id e = 4 \/ event_id e = 5 \/ event_id e = 6 \/ event_id e = 7
               \/ event_id e = 8 \/ event_id e = 9 \/ event_id e = 10
               \/ event_id e = 11 \/ event_id e = 12)%N) by lia.
  repeat (destruct C as [C|C];
          [rewrite C; cbn; intro H; first [discriminate | reflexivity]|]).
  rewrite C; cbn; intro H; discriminate.
Qed.

Lemma default_handler_stage_pending (e : system_event_t) (w : World) :
  pending (snd (default_handler_stage g_system_event_handle_table e w)) = pending w
  \/ (event_id e = SYSTEM_EVENT_STA_CONNECTED
      /\ exists sta_ip,
           pending (snd (default_handler_stage g_system_event_handle_table e w))
           = pending w ++ [got_ip_event sta_ip]).
Proof.
  pose proof (sta_connected_kind e) as K.
  unfold default_handler_stage, default_handler_of in *.
  destruct ((event_id e <? SYSTEM_EVENT_MAX)%N
            && (event_id e
                =? entry_event_id (table_at g_system_event_handle_table (event_id e)))%N);
    [|left; reflexivity].
  destruct (event_handle (table_at g_system_event_handle_table (event_id e))) as [fn|];
    [|left; reflexivity].
  unfold bind, modify. cbn [fst snd].
  destruct (handler_pending_growth fn e (add_history (Enter_default fn e) w))
    as [H | (Hfn & sta_ip & H)].
  - left. exact H.
  - right. split; [apply K; now rewrite Hfn|]. exists sta_ip. exact H.
Qed.

Lemma esp_system_event_task_turn_pending (w : World) (e : system_event_t)
    (rest : list system_event_t) :
  pending w = e :: rest ->
  pending (snd (esp_system_event_task_turn w)) = rest
  \/ (event_id e = SYSTEM_EVENT_STA_CONNECTED
      /\ exists sta_ip,
           pending (snd (esp_system_event_task_turn w)) = rest ++ [got_ip_event sta_ip]).
Proof.
  intro Hp. unfold pending in Hp. unfold esp_system_event_task_turn.
  destruct (g_event_handler w) as [q|] eqn:Hq; [|discriminate].
  unfold xQueueReceive. rewrite Hp. unfold bind.
  set (w0 := add_history (Queue_receive e)
               (set_g_event_handler (Some {| uxLength := uxLength q; items := rest |}) w)).
  assert (E : pending (snd ((if Z.eqb (fst (esp_system_event_handler (Some e) w0)) ESP_FAIL
                             then printf Print_post_event_to_user_fail else ret tt)
                              (snd (esp_system_event_handler (Some e) w0))))
              = pending (snd (default_handler_stage g_system_event_handle_table e
                                (snd (esp_system_event_debug (Some e) w0))))).
  { unfold esp_system_event_handler.
    rewrite esp_system_event_handler_on_stages. unfold bind.
    destruct (Z.eqb _ ESP_FAIL); unfold pending; cbn [snd printf modify add_console ret
      g_event_handler];
      now rewrite esp_wifi_post_event_to_user_queue. }
  rewrite E.
  assert (R0 : pending (snd (esp_system_event_debug (Some e) w0)) = rest).
  { unfold pending.
    destruct (esp_system_event_debug_history (Some e) w0) as (_ & _ & _ & _ & Hg).
    rewrite Hg. reflexivity. }
  destruct (default_handler_stage_pending e (snd (esp_system_event_debug (Some e) w0)))
    as [H | (Hid & sta_ip & H)]; rewrite R0 in H.
  - left. exact H.
  - right. split; [exact Hid|]. exists sta_ip. exact H.
Qed.

Lemma queue_weight_app (l1 l2 : list system_event_t) :
  queue_weight (l1 ++ l2) = queue_weight l1 + queue_weight l2.
Proof. unfold queue_weight. now rewrite map_app, list_sum_app. Qed.

Lemma event_weight_positive (e : system_event_t) : 1 <= event_weight e.
Proof. unfold event_weight. destruct (N.eqb _ _); lia. Qed.

Lemma queue_weight_bound (l : list system_event_t) :
  length l <= queue_weight l <= 2 * length l.
Proof.
  induction l as [|e l IH]; [simpl; unfold queue_weight; simpl; lia|].
  change (e :: l) with ([e] ++ l). rewrite queue_weight_app, length_app.
  unfold queue_weight at 1 3. simpl.
  pose proof (event_weight_positive e).
  assert (event_weight e <= 2) by (unfold event_weight; destruct (N.eqb _ _); lia).
  lia.
Qed.

Lemma esp_system_event_task_turn_weight (w : World) (e : system_event_t)
    (rest : list system_event_t) :
  pending w = e :: rest ->
  queue_weight (pending (snd (esp_system_event_task_turn w))) < queue_weight (pending w).
Proof.
  intro Hp. rewrite Hp.
  change (e :: rest) with ([e] ++ rest). rewrite queue_weight_app.
  assert (We : queue_weight [e] = event_weight e) by (unfold queue_weight; simpl; lia).
  rewrite We.
  destruct (esp_system_event_task_turn_pending w e rest Hp) as [H | (Hid & sta_ip & H)];
    rewrite H.
  - pose proof (event_weight_positive e). lia.
  - rewrite queue_weight_app.
    unfold event_weight. rewrite Hid. cbn. lia.
Qed.

Lemma esp_system_event_task_turn_idle (w : World) :
  pending w = [] -> esp_system_event_task_turn w = (tt, w).
Proof.
  unfold pending, esp_system_event_task_turn.
  destruct (g_event_handler w) as [q|]; [|reflexivity].
  unfold xQueueReceive. intros ->. reflexivity.
Qed.

Lemma esp_system_event_task_idle (n : nat) (w : World) :
  pending w = [] -> esp_system_event_task n w = (tt, w).
Proof.
  intro Hp. induction n as [|n IH]; [reflexivity|].
  cbn [esp_system_event_task]. unfold bind.
  rewrite (esp_system_event_task_turn_idle w Hp). exact IH.
Qed.

Lemma esp_system_event_task_drains (n : nat) :
  forall w : World,
    queue_weight (pending w) <= n -> pending (snd (esp_system_event_task n w)) = [].
Proof.
  induction n as [|n IH]; intros w Hw.
  - destruct (pending w) as [|e rest] eqn:Hp; [cbn; exact Hp|].
    pose proof (queue_weight_bound (e :: rest)) as B. simpl in B. lia.
  - destruct (pending w) as [|e rest] eqn:Hp.
    + rewrite (esp_system_event_task_idle _ w Hp). exact Hp.
    + cbn [esp_system_event_task]. unfold bind. apply IH.
      pose proof (esp_system_event_task_turn_weight w e rest Hp) as D.
      rewrite Hp in D. lia.
Qed.

(** X3.  Left to itself the broker empties the queue: on a queue of n
    waiting events, after 2n turns or more nothing waits.  The events the
    default handlers synthesize cannot keep the queue alive, since only a
    station-associated event is followed by one and an address-acquired
    event by none. *)
Theorem broker_drains (w : World) (k : nat) :
  pending (snd (esp_system_event_task (2 * length (pending w) + k) w)) = [].
Proof.
  apply esp_system_event_task_drains.
  pose proof (queue_weight_bound (pending w)). lia.
Qed.

(** ** What sends and turns never change *)

Lemma step_statics {w w' : World} {h : list history_item}
    {dq dl ds : list system_event_t} :
  step w w' h dq dl ds ->
  g_event_handler_cb w' = g_event_handler_cb w
  /\ g_event_ctx w' = g_event_ctx w
  /\ event_init_flag w' = event_init_flag w
  /\ tasks w' = tasks w.
Proof. intros []; auto. Qed.

Lemma perform_api_flag (c : api_call) (w : World) :
  event_init_flag (snd (perform_api c w)) = event_init_flag w.
Proof.
  destruct c as [cb ctx|cb ctx|e|]; simpl.
  - unfold esp_event_init, bind, gets. cbn [fst snd].
    destruct (event_init_flag w) eqn:F; cbn; auto.
  - reflexivity.
  - unfold bind. cbn [snd ret].
    destruct (Quiet_esp_event_send (Some e) w) as [h S].
    apply (step_statics S).
  - destruct (esp_system_event_task_turn_step w) as (h & dq & S & _).
    apply (step_statics S).
Qed.

(** X4.  No function of event.c assigns event_init_flag: whatever calls
    of esp_event_init, esp_event_set_cb and esp_event_send and whatever
    turns of the broker are made, the flag is what it was.  From boot it
    is therefore false for good, and esp_event_init returns ESP_OK every
    time it is called. *)
Theorem event_init_flag_never_set (calls : list api_call) :
  (forall w : World, event_init_flag (snd (run_api calls w)) = event_init_flag w)
  /\ (forall (e : Env) (cb : option system_event_cb_t) (ctx : ctx_t),
        fst (esp_event_init cb ctx (snd (run_api calls (boot e)))) = ESP_OK).
Proof.
  assert (F : forall w, event_init_flag (snd (run_api calls w)) = event_init_flag w).
  { induction calls as [|c rest IH]; intro w; [reflexivity|].
    simpl. unfold bind. rewrite IH. apply perform_api_flag. }
  split; [exact F|].
  intros e cb ctx. unfold esp_event_init, bind, gets. cbn [fst snd].
  rewrite F. reflexivity.
Qed.

(** X5.  No code of event.c on the paths of a send or of a turn of the
    broker assigns the registration: neither esp_event_send, the loop,
    the dispatch nor any default handler, synthesized sends included.
    With collaborators that act on their own state only, that is, a
    driver, an adapter layer and a callback that do not themselves call
    esp_event_set_cb or esp_event_init, the registered callback, the
    context and the list of tasks are after any interleaving of sends
    and turns what they were before it. *)
Theorem run_keeps_registration (acts : list action) (w : World) :
  g_event_handler_cb (snd (run acts w)) = g_event_handler_cb w
  /\ g_event_ctx (snd (run acts w)) = g_event_ctx w
  /\ tasks (snd (run acts w)) = tasks w.
Proof.
  destruct (run_step acts w) as (h & dq & S & _).
  destruct (step_statics S) as (C & X & _ & T). auto.
Qed.

(** ** Replacing the callback *)

(** X6.  Interposition can be undone: a second esp_event_set_cb returns
    the callback the first installed, and when it is given the callback
    the first returned together with the context that was registered, the
    world is again what it was before the first. *)
Theorem esp_event_set_cb_restore (cb : option system_event_cb_t) (ctx : ctx_t)
    (w : World) :
  let r := esp_event_set_cb cb ctx w in
  fst (esp_event_set_cb (fst r) (g_event_ctx w) (snd r)) = cb
  /\ snd (esp_event_set_cb (fst r) (g_event_ctx w) (snd r)) = w.
Proof. destruct w; split; reflexivity. Qed.

Lemma esp_system_event_handler_on_history (table : list system_event_handle_t)
    (e : system_event_t) (w : World) (f : system_event_cb_t) :
  g_event_handler_cb w = Some f ->
  exists h,
    history (snd (esp_system_event_handler_on table (Some e) w))
    = history w ++ h ++ [Call_user_cb f (g_event_ctx w) e]
    /\ delivered h = [] /\ dequeued h = [].
Proof.
  intro Hcb.
  rewrite esp_system_event_handler_on_stages. unfold bind.
  destruct (esp_system_event_debug_history (Some e) w) as (Hh & Hc & Hx & _ & _).
  set (w1 := snd (esp_system_event_debug (Some e) w)) in *.
  destruct (default_handler_stage_step table e w1) as [h [H D U _ _ C X _ _]].
  exists h. repeat split; try assumption.
  rewrite (esp_wifi_post_event_to_user_history _ _ f).
  - rewrite H, X, Hh, Hx. now rewrite app_assoc.
  - now rewrite C, Hc.
Qed.

Lemma esp_system_event_task_turn_history (w : World) (e : system_event_t)
    (rest : list system_event_t) (f : system_event_cb_t) :
  pending w = e :: rest ->
  g_event_handler_cb w = Some f ->
  exists h,
    history (snd (esp_system_event_task_turn w))
    = history w ++ Queue_receive e :: h ++ [Call_user_cb f (g_event_ctx w) e]
    /\ delivered h = [] /\ dequeued h = [].
Proof.
  intros Hp Hcb. unfold pending in Hp. unfold esp_system_event_task_turn.
  destruct (g_event_handler w) as [q|] eqn:Hq; [|discriminate].
  unfold xQueueReceive. rewrite Hp. unfold bind.
  set (w0 := add_history (Queue_receive e)
               (set_g_event_handler (Some {| uxLength := uxLength q; items := rest |}) w)).
  destruct (esp_system_event_handler_on_history g_system_event_handle_table e w0 f Hcb)
    as (h & H & U & D).
  fold (esp_system_event_handler (Some e)) in H.
  exists h. repeat split; try assumption.
  destruct (Z.eqb _ ESP_FAIL); cbn [snd printf modify add_console ret history];
    rewrite H; subst w0; cbn [history add_history set_g_event_handler g_event_ctx];
    rewrite <- app_assoc; reflexivity.
Qed.

(** X7.  A replaced callback applies to the events already waiting.
    After esp_event_set_cb the queue is what it was, and the next turn
    hands the event at the front to the new callback with the new
    context, as the last thing it does; after a replacement by NULL the
    turn still takes the event, and delivers it to nobody. *)
Theorem callback_swap_applies_to_queued_events (cb : option system_event_cb_t)
    (ctx : ctx_t) (w : World) (e : system_event_t) (rest : list system_event_t) :
  pending w = e :: rest ->
  let w1 := snd (esp_event_set_cb cb ctx w) in
  pending w1 = e :: rest
  /\ dequeued (history (snd (esp_system_event_task_turn w1)))
     = dequeued (history w) ++ [e]
  /\ match cb with
     | Some f =>
         exists h,
           history (snd (esp_system_event_task_turn w1))
           = history w ++ Queue_receive e :: h ++ [Call_user_cb f ctx e]
           /\ delivered h = []
     | None =>
         delivered (history (snd (esp_system_event_task_turn w1))) = delivered (history w)
     end.
Proof.
  intros Hp w1.
  assert (Hp1 : pending w1 = e :: rest) by exact Hp.
  assert (Hh1 : history w1 = history w) by reflexivity.
  assert (Hc1 : g_event_handler_cb w1 = cb) by reflexivity.
  destruct (esp_system_event_task_turn_step w1) as (h & dq & S & E).
  rewrite Hp1 in E. simpl in E. subst dq.
  destruct S as [H D U _ _ _ _ _ _].
  split; [exact Hp1|]. split.
  - rewrite H, dequeued_app, D, Hh1. reflexivity.
  - destruct cb as [f|].
    + destruct (esp_system_event_task_turn_history w1 e rest f Hp1 Hc1)
        as (h' & H' & U' & _).
      exists h'. split; [|exact U']. rewrite H', Hh1. reflexivity.
    + rewrite Hc1 in U. rewrite H, delivered_app, U, Hh1. now rewrite app_nil_r.
Qed.

(** ** The result of the per-event handling *)

(** X8.  The result of the per-event handling of a non-null event is the
    result of the registered callback, called with the registered context
    in the world the default-handler stage left, and ESP_OK when no
    callback is registered: a failure of the default handler is never
    what is returned. *)
Theorem handler_result_is_callback_result (table : list system_event_handle_t)
    (e : system_event_t) (w : World) :
  let w1 := snd (default_handler_stage table e (snd (esp_system_event_debug (Some e) w))) in
  fst (esp_system_event_handler_on table (Some e) w)
  = match g_event_handler_cb w with
    | Some f => fst (user_callback f (g_event_ctx w) e (env w1))
    | None => ESP_OK
    end.
Proof.
  intro w1.
  rewrite esp_system_event_handler_on_stages. unfold bind. fold w1.
  destruct (esp_system_event_debug_history (Some e) w) as (_ & Hc & Hx & _ & _).
  destruct (default_handler_stage_keeps_registration table e
              (snd (esp_system_event_debug (Some e) w))) as (C & X & _).
  fold w1 in C, X.
  unfold esp_wifi_post_event_to_user, bind, gets. cbn [fst snd].
  rewrite C, Hc.
  destruct (g_event_handler_cb w); [|reflexivity].
  rewrite X, Hx. reflexivity.
Qed.

(** ** The handlers that bring an adapter down *)

(** X9.  The access-point stop handler removes the inbound-packet
    routine and stops the adapter only if the driver accepted the
    removal, returning the driver's code otherwise.  The station stop
    handler stops the adapter and returns ESP_OK, with no call of the
    driver.  The station-disassociated handler brings the link down first
    and then removes the inbound-packet routine: the link is taken down
    even when the removal fails, and the code of the removal is the
    result. *)
Theorem adapter_stop_calls (event : system_event_t) (w : World) :
  (let reg := esp_wifi_reg_rxcb WIFI_IF_AP None (env w) in
   history (snd (system_event_ap_stop_handle_default event w))
   = history w ++ Call_esp_wifi_reg_rxcb WIFI_IF_AP None
                  :: (if Z.eqb ESP_OK (fst reg)
                      then [Call_tcpip_adapter_stop TCPIP_ADAPTER_IF_AP] else [])
   /\ fst (system_event_ap_stop_handle_default event w)
      = (if Z.eqb ESP_OK (fst reg) then ESP_OK else fst reg))
  /\
  (history (snd (system_event_sta_stop_handle_default event w))
   = history w ++ [Call_tcpip_adapter_stop TCPIP_ADAPTER_IF_STA]
   /\ fst (system_event_sta_stop_handle_default event w) = ESP_OK)
  /\
  (let reg := esp_wifi_reg_rxcb WIFI_IF_STA None
                (snd (tcpip_adapter_down TCPIP_ADAPTER_IF_STA (env w))) in
   history (snd (system_event_sta_disconnected_handle_default event w))
   = history w ++ [ Call_tcpip_adapter_down TCPIP_ADAPTER_IF_STA;
                    Call_esp_wifi_reg_rxcb WIFI_IF_STA None ]
   /\ fst (system_event_sta_disconnected_handle_default event w)
      = (if Z.eqb ESP_OK (fst reg) then ESP_OK else fst reg)).
Proof.
  cbv zeta. repeat split; run_handler; rewrite <- ?app_assoc; reflexivity.
Qed.

(** ** The station-associated handler off the static path *)

Lemma eqb_ESP_OK_false (code : esp_err_t) : code <> ESP_OK -> Z.eqb ESP_OK code = false.
Proof. intro H. apply Z.eqb_neq. congruence. Qed.

(** X10.  When the driver refuses the inbound-packet routine of the
    station, the station-associated handler returns the driver's code at
    once: the link is not brought up and the address-assignment client is
    not asked.  When the client has not been started yet, the handler
    starts it; when it is running, the handler leaves it alone.  In
    neither case is anything offered to the queue, and the handler
    returns ESP_OK. *)
Theorem sta_connected_without_static_address (event : system_event_t) (w : World) :
  let reg := esp_wifi_reg_rxcb WIFI_IF_STA (Some tcpip_adapter_sta_input) (env w) in
  let r := system_event_sta_connected_handle_default event w in
  (fst reg <> ESP_OK ->
     fst r = fst reg
     /\ history (snd r)
        = history w ++ [Call_esp_wifi_reg_rxcb WIFI_IF_STA (Some tcpip_adapter_sta_input)]
     /\ g_event_handler (snd r) = g_event_handler w)
  /\
  (fst reg = ESP_OK ->
   sta_dhcp_status_found (env w) = TCPIP_ADAPTER_DHCP_INIT ->
     fst r = ESP_OK
     /\ history (snd r)
        = history w ++ [ Call_esp_wifi_reg_rxcb WIFI_IF_STA (Some tcpip_adapter_sta_input);
                         Call_tcpip_adapter_up TCPIP_ADAPTER_IF_STA;
                         Call_tcpip_adapter_dhcpc_get_status TCPIP_ADAPTER_IF_STA;
                         Call_tcpip_adapter_dhcpc_start TCPIP_ADAPTER_IF_STA ]
     /\ g_event_handler (snd r) = g_event_handler w)
  /\
  (fst reg = ESP_OK ->
   sta_dhcp_status_found (env w) = TCPIP_ADAPTER_DHCP_STARTED ->
     fst r = ESP_OK
     /\ history (snd r)
        = history w ++ [ Call_esp_wifi_reg_rxcb WIFI_IF_STA (Some tcpip_adapter_sta_input);
                         Call_tcpip_adapter_up TCPIP_ADAPTER_IF_STA;
                         Call_tcpip_adapter_dhcpc_get_status TCPIP_ADAPTER_IF_STA ]
     /\ g_event_handler (snd r) = g_event_handler w).
Proof.
  cbv zeta. unfold sta_dhcp_status_found, env_after_sta_up.
  split; [|split].
  - intro Hreg. apply eqb_ESP_OK_false in Hreg.
    unfold system_event_sta_connected_handle_default, WIFI_API_CALL_CHECK, bind,
      call_esp_wifi_reg_rxcb, extern, ret.
    cbn [fst snd env]. rewrite Hreg. cbn. auto.
  - intros Hreg Hst.
    unfold system_event_sta_connected_handle_default, WIFI_API_CALL_CHECK, bind,
      call_esp_wifi_reg_rxcb, call_tcpip_adapter_up, call_tcpip_adapter_dhcpc_get_status,
      call_tcpip_adapter_dhcpc_start, extern, ret.
    cbn [fst snd env set_env add_history]. rewrite Hreg.
    cbn [negb Z.eqb ESP_OK fst snd env set_env add_history]. rewrite Hst.
    cbn. rewrite <- !app_assoc. auto.
  - intros Hreg Hst.
    unfold system_event_sta_connected_handle_default, WIFI_API_CALL_CHECK, bind,
      call_esp_wifi_reg_rxcb, call_tcpip_adapter_up, call_tcpip_adapter_dhcpc_get_status,
      extern, ret.
    cbn [fst snd env set_env add_history]. rewrite Hreg.
    cbn [negb Z.eqb ESP_OK fst snd env set_env add_history]. rewrite Hst.
    cbn. rewrite <- !app_assoc. auto.
Qed.

(** X11.  When the queue is full as the station-associated handler
    offers the address-acquired event, the event is lost: the queue is
    what it was, the refusal is printed, and the handler returns ESP_OK
    all the same, so that nothing tells the broker. *)
Theorem sta_connected_full_queue_drops (event : system_event_t) (w : World) (q : xQueue) :
  g_event_handler w = Some q ->
  uxLength q <= length (items q) ->
  fst (esp_wifi_reg_rxcb WIFI_IF_STA (Some tcpip_adapter_sta_input) (env w)) = ESP_OK ->
  sta_dhcp_status_found (env w) = TCPIP_ADAPTER_DHCP_STOPPED ->
  static_ip_is_valid (sta_ip_found (env w)) = true ->
  let r := system_event_sta_connected_handle_default event w in
  fst r = ESP_OK
  /\ g_event_handler (snd r) = Some q
  /\ enqueued (history (snd r)) = enqueued (history w)
  /\ send_attempts (history (snd r))
     = send_attempts (history w) ++ [got_ip_event (sta_ip_found (env w))]
  /\ console (snd r) = console w ++ [Print_send_failed (Some SYSTEM_EVENT_STA_GOT_IP)].
Proof.
  intros Hq Hfull Hreg Hst Hv r. subst r.
  unfold sta_ip_found, env_after_sta_ip_info, env_after_sta_status,
    sta_dhcp_status_found, env_after_sta_up in *.
  unfold system_event_sta_connected_handle_default, WIFI_API_CALL_CHECK, bind,
    call_esp_wifi_reg_rxcb, call_tcpip_adapter_up, call_tcpip_adapter_dhcpc_get_status,
    call_tcpip_adapter_get_ip_info, extern, ret.
  cbn [fst snd env set_env add_history]. rewrite Hreg.
  cbn [negb Z.eqb ESP_OK fst snd env set_env add_history]. rewrite Hst.
  cbn [tcpip_adapter_dhcp_status_eqb fst snd env set_env add_history]. rewrite Hv.
  unfold esp_event_send, bind, call_xQueueSendToBack.
  cbn [g_event_handler add_history set_env]. rewrite Hq.
  rewrite xQueueSendToBack_full by assumption.
  cbn. repeat split.
  - rewrite !enqueued_app. cbn. now rewrite !app_nil_r.
  - rewrite !send_attempts_app. cbn. now rewrite !app_nil_r.
Qed.

(** ** The debug printer *)

Lemma debug_cases_below_sentinel (id : system_event_id_t) :
  existsb (N.eqb id) debug_cases = (id <? SYSTEM_EVENT_MAX)%N.
Proof.
  unfold SYSTEM_EVENT_MAX.
  destruct (N.ltb_spec id 13) as [L|L].
  - assert (C : (id = 0 \/ id = 1 \/ id = 2 \/ id = 3 \/ id = 4 \/ id = 5 \/ id = 6
                 \/ id = 7 \/ id = 8 \/ id = 9 \/ id = 10 \/ id = 11 \/ id = 12)%N)
      by lia.
    repeat (destruct C as [C|C]; [subst id; reflexivity|]).
    subst id; reflexivity.
  - apply not_true_is_false. intro H.
    apply existsb_exists in H. destruct H as (c & Hin & Hc).
    apply N.eqb_eq in Hc. subst c.
    unfold debug_cases in Hin. simpl in Hin.
    repeat (destruct Hin as [Hin|Hin];
            [unfold SYSTEM_EVENT_WIFI_READY, SYSTEM_EVENT_SCAN_DONE,
               SYSTEM_EVENT_STA_START, SYSTEM_EVENT_STA_STOP, SYSTEM_EVENT_STA_CONNECTED,
               SYSTEM_EVENT_STA_DISCONNECTED, SYSTEM_EVENT_STA_AUTHMODE_CHANGE,
               SYSTEM_EVENT_STA_GOT_IP, SYSTEM_EVENT_AP_START, SYSTEM_EVENT_AP_STOP,
               SYSTEM_EVENT_AP_STACONNECTED, SYSTEM_EVENT_AP_STADISCONNECTED,
               SYSTEM_EVENT_AP_PROBEREQRECVED in Hin; lia|]).
    exact Hin.
Qed.

(** X12.  esp_system_event_debug changes nothing but the console and
    returns ESP_OK for a non-null event; it prints its complaint exactly
    for the kinds that are not below the sentinel, the sentinel included.
    An event of such a kind is therefore reported twice by the per-event
    handling, whatever the table holds: first as of no known kind, then
    as mismatched or invalid. *)
Theorem esp_system_event_debug_unknown_kinds (e : system_event_t) (w : World) :
  esp_system_event_debug (Some e) w
  = (ESP_OK, if (event_id e <? SYSTEM_EVENT_MAX)%N
             then w else add_console Print_no_such_kind_of_event w)
  /\ forall table : list system_event_handle_t,
       (SYSTEM_EVENT_MAX <= event_id e)%N ->
       console (snd (esp_system_event_handler_on table (Some e) w))
       = console w ++ [ Print_no_such_kind_of_event;
                        Print_mismatch_or_invalid_event (event_id e) ].
Proof.
  assert (D : esp_system_event_debug (Some e) w
              = (ESP_OK, if (event_id e <? SYSTEM_EVENT_MAX)%N
                         then w else add_console Print_no_such_kind_of_event w)).
  { unfold esp_system_event_debug, bind. rewrite debug_cases_below_sentinel.
    destruct (event_id e <? SYSTEM_EVENT_MAX)%N; reflexivity. }
  split; [exact D|].
  intros table L.
  rewrite esp_system_event_handler_on_stages. unfold bind. rewrite D.
  destruct (N.ltb_spec (event_id e) SYSTEM_EVENT_MAX) as [L'|_]; [lia|].
  cbn [snd].
  rewrite default_handler_stage_invalid by (left; exact L).
  unfold esp_wifi_post_event_to_user, bind, gets, printf, modify. cbn [fst snd].
  cbn [g_event_handler_cb add_console].
  destruct (g_event_handler_cb w); cbn; rewrite <- app_assoc; reflexivity.
Qed.

(** ** Filling the queue *)

(** X13.  Events sent in a row with no turn of the broker in between
    are accepted until the queue is full and refused from then on: the
    queue ends as what waited followed by as many of the sent events, in
    order, as there was room for. *)
Theorem sends_fill_to_capacity (l : list system_event_t) :
  forall (w : World) (q : xQueue),
    g_event_handler w = Some q ->
    pending (snd (run (map Produce l) w))
    = pending w ++ firstn (uxLength q - length (items q)) l.
Proof.
  induction l as [|e l IH]; intros w q Hq.
  - cbn. rewrite firstn_nil. now rewrite app_nil_r.
  - cbn [map run perform]. unfold bind. cbn [snd ret].
    pose proof (esp_event_send_queue e w q Hq) as Hq1.
    rewrite (IH _ _ Hq1).
    unfold pending. rewrite Hq1, Hq.
    unfold xQueueSendToBack.
    destruct (Nat.ltb_spec (length (items q)) (uxLength q)) as [L|L];
      cbn [fst snd uxLength items].
    + rewrite length_app. cbn [length].
      replace (uxLength q - length (items q))
        with (S (uxLength q - (length (items q) + 1))) by lia.
      cbn [firstn]. rewrite <- app_assoc. reflexivity.
    + replace (uxLength q - length (items q)) with 0 by lia.
      reflexivity.
Qed.

(** ** The static address, end to end *)



(** ** A failing default handler is silent *)

(** X15.  When a default handler returns a code other than ESP_OK, it
    has printed nothing and offered nothing to the queue: the failure
    shows in its result only, which the broker drops. *)
Theorem default_handler_failure_is_silent (fn : system_event_handle_fn_t)
    (e : system_event_t) (w : World) :
  fst (call_event_handle fn e w) <> ESP_OK ->
  console (snd (call_event_handle fn e w)) = console w
  /\ g_event_handler (snd (call_event_handle fn e w)) = g_event_handler w
  /\ send_attempts (history (snd (call_event_handle fn e w))) = send_attempts (history w).
Proof.
  destruct fn; cbn [call_event_handle]; run_handler; intro Hfail;
    try (exfalso; apply Hfail; reflexivity);
    repeat split; rewrite ?send_attempts_app; cbn; rewrite ?app_nil_r; reflexivity.
Qed.

(** ** Where delivered events come from *)

Lemma sends_only_refl (allowed : system_event_t -> Prop) (w : World) :
  sends_only allowed w w.
Proof. exists []. split; [now rewrite app_nil_r | constructor]. Qed.

Lemma sends_only_trans (allowed : system_event_t -> Prop) (w1 w2 w3 : World) :
  sends_only allowed w1 w2 -> sends_only allowed w2 w3 -> sends_only allowed w1 w3.
Proof.
  intros (h1 & H1 & F1) (h2 & H2 & F2). exists (h1 ++ h2). split.
  - now rewrite H2, H1, app_assoc.
  - rewrite send_attempts_app. apply Forall_app. auto.
Qed.

Lemma sends_only_same_history (allowed : system_event_t -> Prop) (w w' : World) :
  history w' = history w -> sends_only allowed w w'.
Proof. intro H. exists []. split; [now rewrite app_nil_r | constructor]. Qed.

Lemma sends_only_one_item (allowed : system_event_t -> Prop) (w w' : World)
    (i : history_item) :
  history w' = history w ++ [i] -> send_attempts [i] = [] -> sends_only allowed w w'.
Proof. intros H E. exists [i]. split; [exact H | rewrite E; constructor]. Qed.

Lemma sends_only_esp_event_send (allowed : system_event_t -> Prop) (e : system_event_t) :
  allowed e -> Respects (sends_only allowed) (esp_event_send (Some e)).
Proof.
  intros Ha w. unfold esp_event_send, bind, call_xQueueSendToBack.
  destruct (g_event_handler w) as [q|].
  - exists [Queue_send e (fst (fst (xQueueSendToBack q e 0%N)))
                      (snd (xQueueSendToBack q e 0%N))]. split.
    + cbn [fst snd]. destruct (negb _); reflexivity.
    + cbn. constructor; [exact Ha | constructor].
  - apply sends_only_same_history. reflexivity.
Qed.

Lemma sends_only_call_event_handle (allowed : system_event_t -> Prop)
    (fn : system_event_handle_fn_t) (e : system_event_t) :
  (forall s, is_valid_got_ip s -> allowed s) ->
  Respects (sends_only allowed) (call_event_handle fn e).
Proof.
  intros Hv w.
  destruct (default_handler_sends fn e w) as (h & Hh & [Hs | (_ & sta_ip & Hi & Hs)]);
    exists h; (split; [exact Hh|]); rewrite Hs; [constructor|].
  constructor; [|constructor]. apply Hv.
  split; [reflexivity|].
  exists sta_ip. split; [reflexivity|]. now apply static_ip_is_valid_true.
Qed.

Lemma sends_only_esp_system_event_task_turn (allowed : system_event_t -> Prop) :
  (forall s, is_valid_got_ip s -> allowed s) ->
  Respects (sends_only allowed) esp_system_event_task_turn.
Proof.
  intros Hv w. unfold esp_system_event_task_turn.
  destruct (g_event_handler w) as [q|]; [|apply sends_only_refl].
  unfold xQueueReceive. destruct (items q) as [|e rest]; [apply sends_only_refl|].
  set (w0 := add_history (Queue_receive e)
               (set_g_event_handler (Some {| uxLength := uxLength q; items := rest |}) w)).
  apply (sends_only_trans allowed w w0).
  { apply (sends_only_one_item allowed w w0 (Queue_receive e)); reflexivity. }
  apply (Respects_bind _ (sends_only_trans allowed)).
  - unfold esp_system_event_handler.
    rewrite esp_system_event_handler_on_stages.
    apply (Respects_bind _ (sends_only_trans allowed)).
    + intro x. apply sends_only_same_history.
      apply (esp_system_event_debug_history (Some e) x).
    + intros _. apply (Respects_bind _ (sends_only_trans allowed)).
      * unfold default_handler_stage.
        apply Respects_if;
          [|intro x; apply sends_only_same_history; reflexivity].
        destruct (event_handle (table_at g_system_event_handle_table (event_id e)))
          as [fn|]; [|apply (Respects_ret _ (sends_only_refl allowed))].
        apply (Respects_bind _ (sends_only_trans allowed)).
        -- intro x. apply (sends_only_one_item allowed _ _ (Enter_default fn e));
             reflexivity.
        -- intros _. apply (Respects_bind _ (sends_only_trans allowed));
             [apply sends_only_call_event_handle; exact Hv|].
           intros _. apply (Respects_ret _ (sends_only_refl allowed)).
      * intros _ x. unfold esp_wifi_post_event_to_user, bind, gets. cbn [fst snd].
        destruct (g_event_handler_cb x) as [f|].
        -- apply (sends_only_one_item allowed _ _ (Call_user_cb f (g_event_ctx x) e));
             reflexivity.
        -- apply sends_only_refl.
  - intro r. apply Respects_if;
      [intro x; apply sends_only_same_history; reflexivity
      |apply (Respects_ret _ (sends_only_refl allowed))].
Qed.

Lemma sends_only_run (allowed : system_event_t -> Prop) (acts : list action) :
  (forall s, is_valid_got_ip s -> allowed s) ->
  (forall s, In (Produce s) acts -> allowed s) ->
  Respects (sends_only allowed) (run acts).
Proof.
  intros Hv. induction acts as [|a rest IH]; intro Hp; simpl.
  - apply (Respects_ret _ (sends_only_refl allowed)).
  - apply (Respects_bind _ (sends_only_trans allowed)).
    + destruct a as [s|]; simpl.
      * apply (Respects_bind _ (sends_only_trans allowed)).
        -- apply sends_only_esp_event_send. apply Hp. left. reflexivity.
        -- intros _. apply (Respects_ret _ (sends_only_refl allowed)).
      * apply sends_only_esp_system_event_task_turn. exact Hv.
    + intros _. apply IH. intros s Hs. apply Hp. right. exact Hs.
Qed.

Lemma In_enqueued_send_attempts (h : list history_item) (e : system_event_t) :
  In e (enqueued h) -> In e (send_attempts h).
Proof.
  induction h as [|i h IH]; [auto|].
  destruct i as [| | | | | | | | | |e0 r t| | |]; simpl; try exact IH.
  destruct (Z.eqb r pdPASS); simpl; tauto.
Qed.

(** X16.  The broker delivers no event out of nowhere.  Every event
    handed to the callback during a run waited in the queue at its start,
    or was sent by a producer during the run, or is an address-acquired
    event with a non-zero address, mask and gateway that the
    station-associated handler synthesized. *)
Theorem delivered_events_have_an_origin (acts : list action) (w : World) :
  exists h,
    history (snd (run acts w)) = history w ++ h
    /\ Forall (fun e => In e (pending w) \/ In (Produce e) acts \/ is_valid_got_ip e)
              (delivered h).
Proof.
  destruct (run_step acts w) as (h & dq & S & _).
  destruct S as [H D U _ Q _ _ _ _].
  exists h. split; [exact H|].
  destruct (sends_only_run (fun e => In (Produce e) acts \/ is_valid_got_ip e) acts
              (fun s Hs => or_intror Hs) (fun s Hs => or_introl Hs) w)
    as (h' & H' & F).
  rewrite H in H'. apply app_inv_head in H'. subst h'.
  apply Forall_forall. intros e He.
  assert (Hdq : In e dq).
  { rewrite U in He. destruct (g_event_handler_cb w); [exact He | destruct He]. }
  assert (Hin : In e (pending w ++ enqueued h)) by (rewrite Q; apply in_or_app; auto).
  apply in_app_or in Hin. destruct Hin as [Hin|Hin]; [left; exact Hin|].
  right. apply In_enqueued_send_attempts in Hin.
  rewrite Forall_forall in F. exact (F e Hin).
Qed.

End Further.

(** ** The further statements at concrete inputs *)

(** X7 where one event waits: after the callback 2000 with context 88
    replaces the registered one, the turn hands the event to it. *)
Lemma callback_swap_applies_to_queued_events_witness :
  pending sim_world_full = [ev SYSTEM_EVENT_STA_START]
  /\ exists h,
       history (snd (@esp_system_event_task_turn (SimPlatform 1)
                       (snd (@esp_event_set_cb (SimPlatform 1) (Some 2000%N) 88%N
                               sim_world_full))))
       = history sim_world_full
         ++ Queue_receive (ev SYSTEM_EVENT_STA_START)
            :: h ++ [Call_user_cb 2000%N 88%N (ev SYSTEM_EVENT_STA_START)]
       /\ delivered h = [].
Proof.
  split; [reflexivity|].
  destruct (@callback_swap_applies_to_queued_events (SimPlatform 1) (Some 2000%N) 88%N
              sim_world_full (ev SYSTEM_EVENT_STA_START) [] eq_refl) as (_ & _ & H).
  exact H.
Defined.

(** X10 with a driver that refuses, with a client not yet started and
    with a client that runs. *)
Lemma sta_connected_without_static_address_witness :
  (let w := sim_world 32 sim_env_failing in
   fst (esp_wifi_reg_rxcb WIFI_IF_STA (Some tcpip_adapter_sta_input) (env w)) <> ESP_OK
   /\ fst (@system_event_sta_connected_handle_default (SimPlatform 32)
             (ev SYSTEM_EVENT_STA_CONNECTED) w) = ESP_FAIL)
  /\
  (let w := sim_world 32 (sim_set_dhcp TCPIP_ADAPTER_DHCP_INIT (sim_env sim_static_ip)) in
   sta_dhcp_status_found (env w) = TCPIP_ADAPTER_DHCP_INIT
   /\ adapter_calls (history (snd (@system_event_sta_connected_handle_default
                                     (SimPlatform 32) (ev SYSTEM_EVENT_STA_CONNECTED) w)))
      = [ Call_esp_wifi_reg_rxcb WIFI_IF_STA (Some tcpip_adapter_sta_input);
          Call_tcpip_adapter_up TCPIP_ADAPTER_IF_STA;
          Call_tcpip_adapter_dhcpc_get_status TCPIP_ADAPTER_IF_STA;
          Call_tcpip_adapter_dhcpc_start TCPIP_ADAPTER_IF_STA ])
  /\
  (let w := sim_world 32 (sim_set_dhcp TCPIP_ADAPTER_DHCP_STARTED (sim_env sim_static_ip)) in
   sta_dhcp_status_found (env w) = TCPIP_ADAPTER_DHCP_STARTED
   /\ adapter_calls (history (snd (@system_event_sta_connected_handle_default
                                     (SimPlatform 32) (ev SYSTEM_EVENT_STA_CONNECTED) w)))
      = [ Call_esp_wifi_reg_rxcb WIFI_IF_STA (Some tcpip_adapter_sta_input);
          Call_tcpip_adapter_up TCPIP_ADAPTER_IF_STA;
          Call_tcpip_adapter_dhcpc_get_status TCPIP_ADAPTER_IF_STA ]).
Proof.
  split; [|split]; cbv zeta.
  - assert (Hbad : fst (@esp_wifi_reg_rxcb (SimPlatform 32) WIFI_IF_STA
                          (Some tcpip_adapter_sta_input)
                          (env (sim_world 32 sim_env_failing))) <> ESP_OK)
      by discriminate.
    split; [exact Hbad|].
    destruct (@sta_connected_without_static_address (SimPlatform 32)
                (ev SYSTEM_EVENT_STA_CONNECTED) (sim_world 32 sim_env_failing))
      as (Hrefused & _ & _).
    destruct (Hrefused Hbad) as (Hr & _ & _). rewrite Hr. reflexivity.
  - split; [reflexivity|].
    destruct (@sta_connected_without_static_address (SimPlatform 32)
                (ev SYSTEM_EVENT_STA_CONNECTED)
                (sim_world 32 (sim_set_dhcp TCPIP_ADAPTER_DHCP_INIT
                                 (sim_env sim_static_ip))))
      as (_ & Hinit & _).
    destruct (Hinit eq_refl eq_refl) as (_ & Hh & _). rewrite Hh. reflexivity.
  - split; [reflexivity|].
    destruct (@sta_connected_without_static_address (SimPlatform 32)
                (ev SYSTEM_EVENT_STA_CONNECTED)
                (sim_world 32 (sim_set_dhcp TCPIP_ADAPTER_DHCP_STARTED
                                 (sim_env sim_static_ip))))
      as (_ & _ & Hstarted).
    destruct (Hstarted eq_refl eq_refl) as (_ & Hh & _). rewrite Hh. reflexivity.
Defined.

(** X11 at a full queue of capacity 1. *)
Lemma sta_connected_full_queue_drops_witness :
  g_event_handler sim_world_full
  = Some {| uxLength := 1; items := [ev SYSTEM_EVENT_STA_START] |}
  /\ fst (@system_event_sta_connected_handle_default (SimPlatform 1)
            (ev SYSTEM_EVENT_STA_CONNECTED) sim_world_full) = ESP_OK
  /\ pending (snd (@system_event_sta_connected_handle_default (SimPlatform 1)
                     (ev SYSTEM_EVENT_STA_CONNECTED) sim_world_full))
     = [ev SYSTEM_EVENT_STA_START]
  /\ console (snd (@system_event_sta_connected_handle_default (SimPlatform 1)
                     (ev SYSTEM_EVENT_STA_CONNECTED) sim_world_full))
     = [Print_send_failed (Some SYSTEM_EVENT_STA_GOT_IP)].
Proof.
  assert (L : 1 <= length [ev SYSTEM_EVENT_STA_START]) by (simpl; lia).
  destruct (@sta_connected_full_queue_drops (SimPlatform 1) (ev SYSTEM_EVENT_STA_CONNECTED)
              sim_world_full {| uxLength := 1; items := [ev SYSTEM_EVENT_STA_START] |}
              eq_refl L eq_refl eq_refl eq_refl) as (Hr & Hq & _ & _ & Hc).
  split; [reflexivity|]. split; [exact Hr|]. split.
  - unfold pending. rewrite Hq. reflexivity.
  - exact Hc.
Defined.

(** X12 at the sentinel itself. *)
Lemma esp_system_event_debug_unknown_kinds_witness :
  (SYSTEM_EVENT_MAX <= event_id (ev SYSTEM_EVENT_MAX))%N
  /\ console (snd (@esp_system_event_handler (SimPlatform 32) (Some (ev SYSTEM_EVENT_MAX))
                     (sim_world 32 (sim_env sim_static_ip))))
     = [ Print_no_such_kind_of_event; Print_mismatch_or_invalid_event SYSTEM_EVENT_MAX ].
Proof.
  assert (L : (SYSTEM_EVENT_MAX <= event_id (ev SYSTEM_EVENT_MAX))%N)
    by (simpl; unfold SYSTEM_EVENT_MAX; lia).
  split; [exact L|].
  destruct (@esp_system_event_debug_unknown_kinds (SimPlatform 32) (ev SYSTEM_EVENT_MAX)
              (sim_world 32 (sim_env sim_static_ip))) as [_ H].
  exact (H g_system_event_handle_table L).
Defined.

(** X13 with three events sent to an empty queue of capacity 2. *)
Lemma sends_fill_to_capacity_witness :
  g_event_handler (sim_world 2 (sim_env sim_static_ip)) = Some (xQueueCreate 2)
  /\ pending (snd (@run (SimPlatform 2)
                     (map Produce [ ev SYSTEM_EVENT_SCAN_DONE; ev SYSTEM_EVENT_STA_START;
                                    ev SYSTEM_EVENT_STA_STOP ])
                     (sim_world 2 (sim_env sim_static_ip))))
     = [ev SYSTEM_EVENT_SCAN_DONE; ev SYSTEM_EVENT_STA_START].
Proof.
  split; [reflexivity|].
  exact (@sends_fill_to_capacity (SimPlatform 2)
           [ ev SYSTEM_EVENT_SCAN_DONE; ev SYSTEM_EVENT_STA_START; ev SYSTEM_EVENT_STA_STOP ]
           (sim_world 2 (sim_env sim_static_ip)) (xQueueCreate 2) eq_refl).
Defined.


(** X15 with a driver that refuses the registration of the access
    point. *)
Lemma default_handler_failure_is_silent_witness :
  fst (@call_event_handle (SimPlatform 32) fn_system_event_ap_start_handle_default
         (ev SYSTEM_EVENT_AP_START) (sim_world 32 sim_env_failing)) <> ESP_OK
  /\ console (snd (@call_event_handle (SimPlatform 32)
                     fn_system_event_ap_start_handle_default
                     (ev SYSTEM_EVENT_AP_START) (sim_world 32 sim_env_failing)))
     = [].
Proof.
  assert (Hbad : fst (@call_event_handle (SimPlatform 32)
                        fn_system_event_ap_start_handle_default
                        (ev SYSTEM_EVENT_AP_START) (sim_world 32 sim_env_failing))
                 <> ESP_OK) by discriminate.
  split; [exact Hbad|].
  destruct (@default_handler_failure_is_silent (SimPlatform 32)
              fn_system_event_ap_start_handle_default (ev SYSTEM_EVENT_AP_START)
              (sim_world 32 sim_env_failing) Hbad) as (Hc & _ & _).
  exact Hc.
Defined.
